(** * inseq: attribution utilities ([inseq/attr/feat/attribution_utils.py])

    A shallow embedding of the helper functions that sit between
    [AttributionModel.attribute] and the attribution methods: slicing and
    stringifying token sequences, validating the attributed positions,
    the step-score registry, keyword-argument dispatch and the layout of
    the arguments handed to the attribution library.

    Python integers are [Z], lists are [list], floats are IEEE values
    without payload ([spec_float]), [None]-able arguments are [option]s and
    a raised exception is the [Raise] branch of [result]. *)

From stdpp Require Import gmap strings list fin_maps.
From Stdlib Require Import ZArith SpecFloat.

Open Scope string_scope.
Open Scope Z_scope.

(** ** Exceptions *)

Inductive exception :=
| ValueError (msg : string)
| AttributeError (msg : string)
| KeyError (key : string)
| IndexError (msg : string).

Inductive result (A : Type) :=
| Ok (a : A)
| Raise (e : exception).
Arguments Ok {A} a.
Arguments Raise {A} e.

Definition is_ok {A} (r : result A) : bool :=
  match r with Ok _ => true | Raise _ => false end.

Definition raises_ValueError {A} (r : result A) : bool :=
  match r with Raise (ValueError _) => true | _ => false end.

Definition raises_AttributeError {A} (r : result A) : bool :=
  match r with Raise (AttributeError _) => true | _ => false end.

Definition result_bind {A B} (r : result A) (k : A -> result B) : result B :=
  match r with Ok a => k a | Raise e => Raise e end.

(** ** Python sequence primitives *)

Module Py.

(** [len(l)] as a Python integer. *)
Definition len {A} (l : list A) : Z := Z.of_nat (length l).

(** Normalisation of one bound of [l[start:stop]] (step 1): a negative
    bound counts from the end, and the result is clamped to [0, len]. *)
Definition adjust_index (n i : Z) : Z :=
  if i <? 0 then Z.max 0 (i + n) else Z.min i n.

(** [l[start:stop]]. *)
Definition slice {A} (l : list A) (start stop : Z) : list A :=
  let lo := adjust_index (len l) start in
  let hi := adjust_index (len l) stop in
  take (Z.to_nat (hi - lo)) (drop (Z.to_nat lo) l).

(** [l[i]] for an index produced by [enumerate], hence non-negative. *)
Definition getitem {A} (l : list A) (i : nat) : result A :=
  match l !! i with
  | Some x => Ok x
  | None => Raise (IndexError "list index out of range")
  end.

(** [zip(xs, ys)]: stops at the shorter argument. *)
Fixpoint zip {A B} (xs : list A) (ys : list B) : list (A * B) :=
  match xs, ys with
  | x :: xs', y :: ys' => (x, y) :: zip xs' ys'
  | _, _ => []
  end.

(** [all(bs)]. *)
Definition all (bs : list bool) : bool := forallb id bs.

(** [math.isnan(x)]. *)
Definition isnan (x : spec_float) : bool :=
  match x with S754_nan => true | _ => false end.

(** [sep.join(parts)]. *)
Fixpoint join (sep : string) (parts : list string) : string :=
  match parts with
  | [] => ""
  | [p] => p
  | p :: rest => p +:+ sep +:+ join sep rest
  end.

End Py.

(** ** Insertion-ordered dictionaries

    [list(d.keys())] of a Python dictionary lists the keys in the order in
    which they were first inserted; assigning to a key that is present
    keeps its place. The step-score registry is read in that order. *)

Module ODict.

Definition t (V : Type) : Type := list (string * V).

Fixpoint get {V} (d : t V) (k : string) : option V :=
  match d with
  | [] => None
  | (k', v) :: d' => if String.eqb k k' then Some v else get d' k
  end.

(** [d[k] = v]. *)
Fixpoint set {V} (d : t V) (k : string) (v : V) : t V :=
  match d with
  | [] => [(k, v)]
  | (k', v') :: d' =>
      if String.eqb k k' then (k, v) :: d' else (k', v') :: set d' k v
  end.

Definition keys {V} (d : t V) : list string := map fst d.

Definition values {V} (d : t V) : list V := map snd d.

(** [k in d]. *)
Definition contains {V} (d : t V) (k : string) : bool :=
  match get d k with Some _ => true | None => false end.

End ODict.

(** ** Validation of the attributed positions *)

(** Lines 109-112: the positions after the defaults are filled in. *)
Definition resolve_start (attr_pos_start : option Z) : Z :=
  match attr_pos_start with
  | None => 1
  | Some s => s
  end.

Definition resolve_end (max_length : Z) (attr_pos_end : option Z) : Z :=
  match attr_pos_end with
  | None => max_length
  | Some e => if e >? max_length then max_length else e
  end.

Definition check_attribute_positions
    (max_length : Z) (attr_pos_start attr_pos_end : option Z) : result (Z * Z) :=
  let attr_pos_start := resolve_start attr_pos_start in
  let attr_pos_end := resolve_end max_length attr_pos_end in
  if (attr_pos_start >? attr_pos_end) || (attr_pos_start <? 1) then
    Raise (ValueError "Invalid starting position for attribution")
  else if attr_pos_start =? attr_pos_end then
    Raise (ValueError "Start and end attribution positions cannot be the same.")
  else Ok (attr_pos_start, attr_pos_end).

(** The condition written in the [Raises] entry of the docstring:
    the start position is greater or equal than the end position or < 0. *)
Definition documented_raise_condition
    (max_length : Z) (attr_pos_start attr_pos_end : option Z) : Prop :=
  resolve_start attr_pos_start >= resolve_end max_length attr_pos_end
  \/ resolve_start attr_pos_start < 0.

(** ** Rescaling attributions to the attributed tokens *)

(** Inside the comprehension [tokens] is the token sequence paired with
    [attr] by [zip]; the argument of the same name is only read to build
    the [zip]. *)
Definition rescale_attributions_to_tokens
    (attributions : list (list spec_float)) (tokens : list (list string))
    : list (list spec_float) :=
  map (fun '(attr, tokens) =>
         if negb (Py.all (map Py.isnan attr))
         then Py.slice attr 0 (Py.len tokens)
         else [])
      (Py.zip attributions tokens).

(** ** Tokens paired with their ids *)

Record TokenWithId := { token : string; id : Z }.

Definition join_token_ids
    (tokens : list (list string)) (ids : list (list Z)) : list (list TokenWithId) :=
  map (fun '(tok_seq, idx_seq) =>
         map (fun '(token, id) => {| token := token; id := id |})
             (Py.zip tok_seq idx_seq))
      (Py.zip tokens ids).

(** ** Collaborators

    Tensors, the output of a forward pass and the values users pass through
    keyword arguments are opaque to this module; [unsqueeze_last] is
    [t.unsqueeze(-1)]. *)

Inductive TextInput :=
| OneText (s : string)
| ManyTexts (l : list string).

Section Model.
Context {Tensor ModelOutput Value : Type}.
Variable unsqueeze_last : Tensor -> Tensor.

(** A user-facing dictionary [Dict[str, Any]], compared with [==]. *)
Local Notation Dict := (gmap string Value) (only parsing).

Record Batch := {
  input_tokens : list (list string);
  input_ids : Tensor;
  input_embeds : Tensor;
  attention_mask : Tensor;
  baseline_ids : Tensor;
  baseline_embeds : Tensor
}.

Record EncoderDecoderBatch := { sources : Batch; targets : Batch }.

(** [Union[EncoderDecoderBatch, DecoderOnlyBatch]]; a decoder-only batch has
    the fields of [Batch] and no [sources]/[targets]. *)
Inductive AnyBatch :=
| EncDec (b : EncoderDecoderBatch)
| DecOnly (b : Batch).

Record AttributionModel := {
  convert_tokens_to_string : list (list string) -> bool -> TextInput;
  convert_string_to_tokens : string -> bool -> list string;
  (** [model(inputs_embeds, decoder_inputs_embeds, attention_mask,
      decoder_attention_mask)] *)
  model : Tensor -> Tensor -> Tensor -> Tensor -> ModelOutput
}.

(** The named arguments every step-score function is called with. *)
Record StepFnArgs := {
  arg_attribution_model : AttributionModel;
  arg_forward_output : ModelOutput;
  arg_encoder_input_ids : Tensor;
  arg_decoder_input_ids : Tensor;
  arg_encoder_input_embeds : Tensor;
  arg_decoder_input_embeds : Tensor;
  arg_target_ids : Tensor;
  arg_encoder_attention_mask : Tensor;
  arg_decoder_attention_mask : Tensor
}.

(** A callable producing one score per step: the parameter names of its
    signature and its behaviour on a call. *)
Record StepScoreFn := {
  parameters : list string;
  call : StepFnArgs -> Dict -> result Tensor
}.

(** An attribution method, as far as [extract_args] uses it. *)
Record FeatureAttribution := {
  get_attribution_args : Dict -> Dict * Dict
}.

(** [extract_signature_args(full_args, func, exclude_args, return_remaining)]
    of [inseq.utils]: the entries of [full_args] that [func] accepts and,
    when [return_remaining] is set, the remaining ones (the second component
    is not read otherwise). *)
Variable extract_signature_args :
  Dict -> StepScoreFn -> list string -> bool -> Dict * Dict.

(** The step functions of [inseq.utils] registered at import time. *)
Variables output2prob output2ent output2ce output2ppl : StepScoreFn.

(** ** Slicing and stringifying token sequences *)

(** The comprehension over [enumerate(token_lists)], from index [i] on. *)
Fixpoint tok2string_slices
    (start end_ : list Z) (i : nat) (token_lists : list (list string))
    : result (list (list string)) :=
  match token_lists with
  | [] => Ok []
  | tokens :: rest =>
      result_bind (Py.getitem start i) (fun start_i =>
      result_bind (Py.getitem end_ i) (fun end_i =>
      result_bind (tok2string_slices start end_ (S i) rest) (fun slices =>
      Ok (Py.slice tokens start_i end_i :: slices))))
  end.

Definition tok2string
    (attribution_model : AttributionModel) (token_lists : list (list string))
    (start end_ : option Z) (as_targets : bool) : result TextInput :=
  let start := map (fun _ => match start with None => 0 | Some s => s end) token_lists in
  let end_ :=
    map (fun tokens => match end_ with None => Py.len tokens | Some e => e end)
        token_lists in
  result_bind (tok2string_slices start end_ 0%nat token_lists) (fun slices =>
  Ok (convert_tokens_to_string attribution_model slices as_targets)).

(** What the call is described to hand to [convert_tokens_to_string]:
    [tokens[start:end]] for every sequence, with [None] read as [0] and as
    the length of that sequence. *)
Definition described_slices
    (token_lists : list (list string)) (start end_ : option Z) : list (list string) :=
  map (fun tokens =>
         Py.slice tokens (default 0 start) (default (Py.len tokens) end_))
      token_lists.

(** ** Module state

    The two process-wide registries, the dictionaries owned by callers
    (which [extract_args] updates in place, so they are addressed by
    reference) and the warnings sent to the logger. *)

Definition loc := nat.

Record State := {
  STEP_SCORES_MAP : ODict.t StepScoreFn;
  DEFAULT_ATTRIBUTION_AGGREGATE_DICT : gmap string (gmap string (gmap string (Tensor -> Tensor)));
  heap : gmap loc Dict;
  warnings : list Dict
}.

Definition set_STEP_SCORES_MAP (f : ODict.t StepScoreFn -> ODict.t StepScoreFn) (s : State) : State :=
  {| STEP_SCORES_MAP := f (STEP_SCORES_MAP s);
     DEFAULT_ATTRIBUTION_AGGREGATE_DICT := DEFAULT_ATTRIBUTION_AGGREGATE_DICT s;
     heap := heap s;
     warnings := warnings s |}.

Definition set_DEFAULT_ATTRIBUTION_AGGREGATE_DICT
    (f : gmap string (gmap string (gmap string (Tensor -> Tensor)))
         -> gmap string (gmap string (gmap string (Tensor -> Tensor))))
    (s : State) : State :=
  {| STEP_SCORES_MAP := STEP_SCORES_MAP s;
     DEFAULT_ATTRIBUTION_AGGREGATE_DICT := f (DEFAULT_ATTRIBUTION_AGGREGATE_DICT s);
     heap := heap s;
     warnings := warnings s |}.

Definition set_heap (f : gmap loc Dict -> gmap loc Dict) (s : State) : State :=
  {| STEP_SCORES_MAP := STEP_SCORES_MAP s;
     DEFAULT_ATTRIBUTION_AGGREGATE_DICT := DEFAULT_ATTRIBUTION_AGGREGATE_DICT s;
     heap := f (heap s);
     warnings := warnings s |}.

Definition set_warnings (f : list Dict -> list Dict) (s : State) : State :=
  {| STEP_SCORES_MAP := STEP_SCORES_MAP s;
     DEFAULT_ATTRIBUTION_AGGREGATE_DICT := DEFAULT_ATTRIBUTION_AGGREGATE_DICT s;
     heap := heap s;
     warnings := f (warnings s) |}.


(** Computations that read and write the module state and may raise; an
    exception keeps the writes made before it. *)
Definition M (A : Type) : Type := State -> result A * State.

#[global] Instance M_ret : MRet M := fun A a s => (Ok a, s).

#[global] Instance M_bind : MBind M := fun A B k m s =>
  match m s with
  | (Ok a, s') => k a s'
  | (Raise e, s') => (Raise e, s')
  end.

Definition raise {A} (e : exception) : M A := fun s => (Raise e, s).

Definition gets {A} (f : State -> A) : M A := fun s => (Ok (f s), s).

Definition modify (f : State -> State) : M unit := fun s => (Ok tt, f s).

Definition lift {A} (r : result A) : M A := fun s => (r, s).

(** [{}]: a new dictionary object. *)
Definition new_dict : M loc := fun s =>
  let l := fresh (dom (heap s)) in
  (Ok l, set_heap (insert l ∅) s).

(** [d.update(other)] on the dictionary object at [l]. *)
Definition dict_update (l : loc) (other : Dict) : M unit :=
  modify (set_heap (fun h => <[l := other ∪ default ∅ (h !! l)]> h)).

(** [logger.warning(...)]. *)
Definition logger_warning (unused_args : Dict) : M unit :=
  modify (set_warnings (fun w => (w ++ [unused_args])%list)).

(** The registry as the module is imported. *)
Definition initial_STEP_SCORES_MAP : ODict.t StepScoreFn :=
  [ ("probability", output2prob);
    ("entropy", output2ent);
    ("crossentropy", output2ce);
    ("perplexity", output2ppl) ].

Definition initial_state
    (aggregate_dict : gmap string (gmap string (gmap string (Tensor -> Tensor)))) : State :=
  {| STEP_SCORES_MAP := initial_STEP_SCORES_MAP;
     DEFAULT_ATTRIBUTION_AGGREGATE_DICT := aggregate_dict;
     heap := ∅;
     warnings := [] |}.

(** ** Step scores *)

Definition get_step_scores
    (attribution_model : option AttributionModel) (batch : EncoderDecoderBatch)
    (target_ids : Tensor) (score_identifier : string) (step_scores_args : Dict)
    : M Tensor :=
  match attribution_model with
  | None => raise (ValueError "Attribution model is not set.")
  | Some attribution_model =>
      let output :=
        model attribution_model
          (input_embeds (sources batch)) (input_embeds (targets batch))
          (attention_mask (sources batch)) (attention_mask (targets batch)) in
      registry ← gets STEP_SCORES_MAP;
      match ODict.get registry score_identifier with
      | None => raise (KeyError score_identifier)
      | Some step_fn =>
          lift (call step_fn
                  {| arg_attribution_model := attribution_model;
                     arg_forward_output := output;
                     arg_encoder_input_ids := input_ids (sources batch);
                     arg_decoder_input_ids := input_ids (targets batch);
                     arg_encoder_input_embeds := input_embeds (sources batch);
                     arg_decoder_input_embeds := input_embeds (targets batch);
                     arg_target_ids := target_ids;
                     arg_encoder_attention_mask := attention_mask (sources batch);
                     arg_decoder_attention_mask := attention_mask (targets batch) |}
                  step_scores_args)
      end
  end.

Definition list_step_scores : M (list string) :=
  registry ← gets STEP_SCORES_MAP;
  mret (ODict.keys registry).

(** The loop over [aggregate_map.items()]. *)
Fixpoint register_aggregate_map
    (identifier : string) (items : list (string * (Tensor -> Tensor))) : M unit :=
  match items with
  | [] => mret tt
  | (agg_name, agg_fn) :: rest =>
      aggregate_dict ← gets DEFAULT_ATTRIBUTION_AGGREGATE_DICT;
      match aggregate_dict !! "step_scores" with
      | None => raise (KeyError "step_scores")
      | Some step_scores =>
          let by_identifier := default ∅ (step_scores !! agg_name) in
          modify (set_DEFAULT_ATTRIBUTION_AGGREGATE_DICT
                    (insert "step_scores"
                       (<[agg_name := <[identifier := agg_fn]> by_identifier]> step_scores)));;
          register_aggregate_map identifier rest
      end
  end.

Definition register_step_score
    (fn : StepScoreFn) (identifier : string)
    (aggregate_map : option (ODict.t (Tensor -> Tensor))) : M unit :=
  modify (set_STEP_SCORES_MAP (fun registry => ODict.set registry identifier fn));;
  match aggregate_map with
  | Some items => register_aggregate_map identifier items
  | None => mret tt
  end.

(** ** Dispatch of keyword arguments *)

(** The keyword arguments of [extract_args]: the three dictionaries a caller may pass
    by name, and every other keyword argument. *)
Record Kwargs := {
  kw_attribution_args : option loc;
  kw_attributed_fn_args : option loc;
  kw_step_scores_args : option loc;
  kw_others : Dict
}.

(** [kwargs.pop(name, {})] for one of the three dictionaries. *)
Definition pop_dict (entry : option loc) : M loc :=
  match entry with
  | Some l => mret l
  | None => new_dict
  end.

Definition step_score_not_found (step_score : string) (available : list string) : exception :=
  AttributeError
    ("Step score " +:+ step_score +:+ " not found. Available step scores are: "
     +:+ Py.join ", " available +:+ ". Use the inseq.register_step_score"
     +:+ "function to register a custom step score.").

(** The loop over [step_scores], with [extra_step_scores_args] so far. *)
Fixpoint collect_step_scores_args
    (kwargs : Dict) (default_args : list string) (step_scores : list string)
    (extra_step_scores_args : Dict) : M Dict :=
  match step_scores with
  | [] => mret extra_step_scores_args
  | step_score :: rest =>
      registry ← gets STEP_SCORES_MAP;
      match ODict.get registry step_score with
      | None => raise (step_score_not_found step_score (ODict.keys registry))
      | Some step_fn =>
          collect_step_scores_args kwargs default_args rest
            ((extract_signature_args kwargs step_fn default_args false).1
             ∪ extra_step_scores_args)
      end
  end.

Definition extract_args
    (attribution_method : FeatureAttribution) (attributed_fn : StepScoreFn)
    (step_scores default_args : list string) (kwargs : Kwargs)
    : M (loc * loc * loc) :=
  attribution_args ← pop_dict (kw_attribution_args kwargs);
  attributed_fn_args ← pop_dict (kw_attributed_fn_args kwargs);
  step_scores_args ← pop_dict (kw_step_scores_args kwargs);
  let kwargs := kw_others kwargs in
  let '(extra_attribution_args, attribution_unused_args) :=
    get_attribution_args attribution_method kwargs in
  let '(extra_attributed_fn_args, attributed_fn_unused_args) :=
    extract_signature_args kwargs attributed_fn default_args true in
  extra_step_scores_args ← collect_step_scores_args kwargs default_args step_scores ∅;
  let step_scores_unused_args :=
    filter (fun kv => kv.1 ∉ dom extra_step_scores_args) kwargs in
  let unused_args :=
    filter (fun kv => kv.1 ∈ dom attribution_unused_args
                             ∩ dom attributed_fn_unused_args
                             ∩ dom step_scores_unused_args) kwargs in
  (if bool_decide (dom unused_args = ∅) then mret tt else logger_warning unused_args);;
  dict_update attribution_args extra_attribution_args;;
  dict_update attributed_fn_args extra_attributed_fn_args;;
  dict_update step_scores_args extra_step_scores_args;;
  mret (attribution_args, attributed_fn_args, step_scores_args).

(** The keyword arguments matched to the signatures of the requested step
    scores: every match overrides the earlier ones. *)
Definition matched_step_scores_args
    (registry : ODict.t StepScoreFn) (kwargs : Dict) (default_args step_scores : list string)
    : Dict :=
  foldl (fun extra step_score =>
           match ODict.get registry step_score with
           | Some step_fn =>
               (extract_signature_args kwargs step_fn default_args false).1 ∪ extra
           | None => extra
           end)
        ∅ step_scores.

(** The dictionary objects a caller passed by name. *)
Definition supplied_dicts (kwargs : Kwargs) : list loc :=
  omap (fun entry => entry) [kw_attribution_args kwargs; kw_attributed_fn_args kwargs;
           kw_step_scores_args kwargs].

(** The dictionary a caller passed under one of the three names, as popped:
    its contents on entry, or [{}] when the name is absent. *)
Definition popped_dict (s : State) (entry : option loc) : Dict :=
  match entry with
  | Some l => default ∅ (heap s !! l)
  | None => ∅
  end.

(** The description of the three results: each is the popped dictionary
    updated with the keyword arguments matched to its own call site. *)
Definition returns_updated_dicts
    (attribution_method : FeatureAttribution) (attributed_fn : StepScoreFn)
    (step_scores default_args : list string) (kwargs : Kwargs) (s : State) : Prop :=
  forall attribution_args attributed_fn_args step_scores_args s',
    extract_args attribution_method attributed_fn step_scores default_args kwargs s
    = (Ok (attribution_args, attributed_fn_args, step_scores_args), s') ->
    heap s' !! attribution_args
    = Some ((get_attribution_args attribution_method (kw_others kwargs)).1
            ∪ popped_dict s (kw_attribution_args kwargs))
    /\ heap s' !! attributed_fn_args
       = Some ((extract_signature_args (kw_others kwargs) attributed_fn default_args true).1
               ∪ popped_dict s (kw_attributed_fn_args kwargs))
    /\ heap s' !! step_scores_args
       = Some (matched_step_scores_args (STEP_SCORES_MAP s) (kw_others kwargs)
                 default_args step_scores
               ∪ popped_dict s (kw_step_scores_args kwargs)).

(** ** Arguments in the layout of the attribution library *)

(** The objects stored in the argument dictionary. *)
Inductive PyObj :=
| PTensor (t : Tensor)
| PBool (b : bool)
| PCallable (f : StepScoreFn)
| PStrList (l : list string)
| PValue (v : Value)
| PTuple (items : list PyObj).

Definition format_attribute_args_encoder_decoder
    (batch : EncoderDecoderBatch) (target_ids : Tensor) (attributed_fn : StepScoreFn)
    (attribute_target : bool) (attributed_fn_args : ODict.t Value)
    (is_layer_attribution : bool) : gmap string PyObj * PyObj :=
  let '(inputs, baselines) :=
    if is_layer_attribution
    then ([PTensor (input_ids (sources batch))], [PTensor (baseline_ids (sources batch))])
    else ([PTensor (input_embeds (sources batch))], [PTensor (baseline_embeds (sources batch))]) in
  let '(inputs, baselines) :=
    if attribute_target
    then ((inputs ++ [PTensor (input_embeds (targets batch))])%list,
          (baselines ++ [PTensor (baseline_embeds (targets batch))])%list)
    else (inputs, baselines) in
  let additional_forward_args :=
    ([ PTensor (input_ids (sources batch));
       PTensor (input_ids (targets batch));
       PTensor (unsqueeze_last target_ids);
       PCallable attributed_fn;
       PTensor (attention_mask (sources batch));
       PTensor (attention_mask (targets batch));
       PBool (negb is_layer_attribution);
       PStrList (ODict.keys attributed_fn_args) ]
     ++ map PValue (ODict.values attributed_fn_args))%list in
  let attribute_fn_args : gmap string PyObj :=
    <["additional_forward_args" := PTuple additional_forward_args]>
      (<["inputs" := PTuple inputs]> ∅) in
  let attribute_fn_args :=
    if negb attribute_target
    then <["additional_forward_args" :=
             PTuple (PTensor (input_embeds (targets batch)) :: additional_forward_args)]>
           attribute_fn_args
    else attribute_fn_args in
  (attribute_fn_args, PTuple baselines).

Definition format_attribute_args_decoder_only
    (batch : Batch) (target_ids : Tensor) (attributed_fn : StepScoreFn)
    (attributed_fn_args : ODict.t Value) (is_layer_attribution : bool)
    : gmap string PyObj * PyObj :=
  let '(inputs, baselines) :=
    if is_layer_attribution
    then ([PTensor (input_ids batch)], [PTensor (baseline_ids batch)])
    else ([PTensor (input_embeds batch)], [PTensor (baseline_embeds batch)]) in
  let attribute_fn_args : gmap string PyObj :=
    <["additional_forward_args" :=
        PTuple ([ PTensor (input_ids batch);
                  PTensor (unsqueeze_last target_ids);
                  PCallable attributed_fn;
                  PTensor (attention_mask batch);
                  PBool (negb is_layer_attribution);
                  PStrList (ODict.keys attributed_fn_args) ]
                ++ map PValue (ODict.values attributed_fn_args))%list]>
      (<["inputs" := PTuple inputs]> ∅) in
  (attribute_fn_args, PTuple baselines).

(** The call of [format_fn] on a batch of the union type: reading
    [batch.sources] of a decoder-only batch, or [batch.input_ids] of an
    encoder-decoder one, fails. *)
Definition apply_encoder_decoder
    (batch : AnyBatch) (target_ids : Tensor) (attributed_fn : StepScoreFn)
    (attribute_target : bool) (attributed_fn_args : ODict.t Value)
    (is_layer_attribution : bool) : result (gmap string PyObj * PyObj) :=
  match batch with
  | EncDec b =>
      Ok (format_attribute_args_encoder_decoder
            b target_ids attributed_fn attribute_target attributed_fn_args
            is_layer_attribution)
  | DecOnly _ => Raise (AttributeError "'DecoderOnlyBatch' object has no attribute 'sources'")
  end.

Definition apply_decoder_only
    (batch : AnyBatch) (target_ids : Tensor) (attributed_fn : StepScoreFn)
    (attributed_fn_args : ODict.t Value) (is_layer_attribution : bool)
    : result (gmap string PyObj * PyObj) :=
  match batch with
  | DecOnly b =>
      Ok (format_attribute_args_decoder_only
            b target_ids attributed_fn attributed_fn_args is_layer_attribution)
  | EncDec _ => Raise (AttributeError "'EncoderDecoderBatch' object has no attribute 'input_ids'")
  end.

Definition format_attribute_args
    (batch : AnyBatch) (target_ids : Tensor) (attributed_fn : StepScoreFn)
    (attribute_target : bool) (attributed_fn_args : ODict.t Value)
    (is_layer_attribution use_baseline is_encoder_decoder : bool)
    : result (gmap string PyObj) :=
  result_bind
    (if is_encoder_decoder
     then apply_encoder_decoder batch target_ids attributed_fn attribute_target
            attributed_fn_args is_layer_attribution
     else apply_decoder_only batch target_ids attributed_fn
            attributed_fn_args is_layer_attribution)
    (fun '(attribute_fn_args, baselines) =>
       Ok (if use_baseline
           then <["baselines" := baselines]> attribute_fn_args
           else attribute_fn_args)).

(** ** The operations of the module as calls on the module state *)

Inductive Call :=
| Tok2string (attribution_model : AttributionModel) (token_lists : list (list string))
    (start end_ : option Z) (as_targets : bool)
| CheckAttributePositions (max_length : Z) (attr_pos_start attr_pos_end : option Z)
| GetStepScores (attribution_model : option AttributionModel) (batch : EncoderDecoderBatch)
    (target_ids : Tensor) (score_identifier : string) (step_scores_args : Dict)
| ExtractArgs (attribution_method : FeatureAttribution) (attributed_fn : StepScoreFn)
    (step_scores default_args : list string) (kwargs : Kwargs)
| FormatAttributeArgs (batch : AnyBatch) (target_ids : Tensor) (attributed_fn : StepScoreFn)
    (attribute_target : bool) (attributed_fn_args : ODict.t Value)
    (is_layer_attribution use_baseline is_encoder_decoder : bool)
| ListStepScores
| JoinTokenIds (tokens : list (list string)) (ids : list (list Z))
| RescaleAttributionsToTokens (attributions : list (list spec_float))
    (tokens : list (list string))
| RegisterStepScore (fn : StepScoreFn) (identifier : string)
    (aggregate_map : option (ODict.t (Tensor -> Tensor))).


(** The module state once the call has returned or raised. *)
Definition state_after (c : Call) (s : State) : State :=
  match c with
  | Tok2string m token_lists start end_ as_targets =>
      (lift (tok2string m token_lists start end_ as_targets) s).2
  | CheckAttributePositions max_length attr_pos_start attr_pos_end =>
      (lift (check_attribute_positions max_length attr_pos_start attr_pos_end) s).2
  | GetStepScores m batch target_ids score_identifier step_scores_args =>
      (get_step_scores m batch target_ids score_identifier step_scores_args s).2
  | ExtractArgs attribution_method attributed_fn step_scores default_args kwargs =>
      (extract_args attribution_method attributed_fn step_scores default_args kwargs s).2
  | FormatAttributeArgs batch target_ids attributed_fn attribute_target attributed_fn_args
      is_layer_attribution use_baseline is_encoder_decoder =>
      (lift (format_attribute_args batch target_ids attributed_fn attribute_target
               attributed_fn_args is_layer_attribution use_baseline is_encoder_decoder) s).2
  | ListStepScores => (list_step_scores s).2
  | JoinTokenIds tokens ids => (lift (Ok (join_token_ids tokens ids)) s).2
  | RescaleAttributionsToTokens attributions tokens =>
      (lift (Ok (rescale_attributions_to_tokens attributions tokens)) s).2
  | RegisterStepScore fn identifier aggregate_map =>
      (register_step_score fn identifier aggregate_map s).2
  end.

End Model.

(** ** The helper of [inseq.utils]

    Modelled from the spec: [extract_signature_args] is imported from
    [inseq.utils] and is not among the sources at hand. It matches keyword
    arguments to the signature of a call site: the entries of [full_args]
    whose name is a parameter of [func] and is not excluded, together with
    the entries left over when [return_remaining] is set. *)
Definition signature_args {Tensor ModelOutput Value : Type}
    (full_args : gmap string Value) (func : @StepScoreFn Tensor ModelOutput Value)
    (exclude_args : list string) (return_remaining : bool)
    : gmap string Value * gmap string Value :=
  let extracted_args :=
    filter (fun kv => kv.1 ∈ parameters func /\ kv.1 ∉ exclude_args) full_args in
  (extracted_args,
   if return_remaining
   then filter (fun kv => kv.1 ∉ dom extracted_args) full_args
   else ∅).

(** ** A small instance

    Integer-valued tensors and keyword arguments, an attribution method
    configured by [n_steps] and an attributed function whose only parameter
    is [temperature]. *)
Module Example.

(** An attribution method whose only argument is [n_steps]. *)
Definition stepwise_method : @FeatureAttribution Z :=
  {| get_attribution_args := fun kwargs =>
       (filter (fun kv => kv.1 = "n_steps") kwargs,
        filter (fun kv => kv.1 ≠ "n_steps") kwargs) |}.

Definition scaled_score : @StepScoreFn Z unit Z :=
  {| parameters := ["temperature"];
     call := fun args kwargs => Ok (arg_target_ids args) |}.

Definition registry : ODict.t (@StepScoreFn Z unit Z) :=
  initial_STEP_SCORES_MAP scaled_score scaled_score scaled_score scaled_score.

(** One dictionary [{}] owned by the caller, at address 0. *)
Definition one_dict : @State Z unit Z :=
  {| STEP_SCORES_MAP := registry;
     DEFAULT_ATTRIBUTION_AGGREGATE_DICT := {[ "step_scores" := ∅ ]};
     heap := {[ 0%nat := ∅ ]};
     warnings := [] |}.

(** Three dictionaries owned by the caller. *)
Definition three_dicts : @State Z unit Z :=
  {| STEP_SCORES_MAP := registry;
     DEFAULT_ATTRIBUTION_AGGREGATE_DICT := {[ "step_scores" := ∅ ]};
     heap := {[ 0%nat := {[ "n_steps" := 3 ]}; 1%nat := ∅; 2%nat := ∅ ]};
     warnings := [] |}.

(** [attribution_args=d, attributed_fn_args=d, n_steps=5, temperature=2]
    for one dictionary [d]. *)
Definition shared_kwargs : @Kwargs Z :=
  {| kw_attribution_args := Some 0%nat;
     kw_attributed_fn_args := Some 0%nat;
     kw_step_scores_args := None;
     kw_others := {[ "n_steps" := 5; "temperature" := 2 ]} |}.

(** [attribution_args=a, attributed_fn_args=b, step_scores_args=c,
    n_steps=5, temperature=2] for three dictionaries. *)
Definition separate_kwargs : @Kwargs Z :=
  {| kw_attribution_args := Some 0%nat;
     kw_attributed_fn_args := Some 1%nat;
     kw_step_scores_args := Some 2%nat;
     kw_others := {[ "n_steps" := 5; "temperature" := 2 ]} |}.

Definition batch : @Batch Z :=
  {| input_tokens := [["a"; "b"]];
     input_ids := 1; input_embeds := 2; attention_mask := 3;
     baseline_ids := 4; baseline_embeds := 5 |}.

End Example.

(** ** Splitting targets around the attributed step *)

Section SplitTargets.
Context {Tensor ModelOutput : Type}.

(** Lines 72-75: [tok2string] on [targets[:start]], [targets[start:step+1]],
    [targets[step+1:end]] and [targets[end:]], with [as_targets] left at its
    default. *)
Definition get_split_targets
    (attribution_model : @AttributionModel Tensor ModelOutput)
    (targets : list (list string)) (start end_ step : Z)
    : result (TextInput * TextInput * TextInput * TextInput) :=
  result_bind (tok2string attribution_model targets None (Some start) true)
    (fun skipped_prefixes =>
  result_bind (tok2string attribution_model targets (Some start) (Some (step + 1)) true)
    (fun attributed_sentences =>
  result_bind (tok2string attribution_model targets (Some (step + 1)) (Some end_) true)
    (fun unattributed_suffixes =>
  result_bind (tok2string attribution_model targets (Some end_) None true)
    (fun skipped_suffixes =>
  Ok (skipped_prefixes, attributed_sentences, unattributed_suffixes, skipped_suffixes))))).

End SplitTargets.

(** [aggregate_dict["step_scores"][agg_name][identifier]], with [None] for
    a missing key at any of the three levels. *)
Definition stored_aggregate_fn {Tensor : Type}
    (aggregate_dict : gmap string (gmap string (gmap string (Tensor -> Tensor))))
    (agg_name identifier : string) : option (Tensor -> Tensor) :=
  match aggregate_dict !! "step_scores" with
  | Some by_name =>
      match by_name !! agg_name with
      | Some by_identifier => by_identifier !! identifier
      | None => None
      end
  | None => None
  end.

(** ** A small attribution model

    Tokens are joined by spaces into one text per sequence, a text is one
    token, and the forward pass returns nothing of interest. *)
Module Sample.

Definition spaced_model : @AttributionModel Z unit :=
  {| convert_tokens_to_string := fun token_lists _ =>
       ManyTexts (map (Py.join " ") token_lists);
     convert_string_to_tokens := fun text _ => [text];
     model := fun _ _ _ _ => tt |}.

Definition batch : @EncoderDecoderBatch Z :=
  {| sources := Example.batch; targets := Example.batch |}.

End Sample.

(** * Properties *)

(** ** Python sequence primitives *)

Lemma adjust_index_bounds (n i : Z) :
  0 <= n -> 0 <= Py.adjust_index n i <= n.
Proof. unfold Py.adjust_index. destruct (Z.ltb_spec i 0); lia. Qed.

(** [l[0:n]] with [0 <= n] keeps the first [n] elements. *)
Lemma slice_prefix {A} (l : list A) (n : nat) :
  Py.slice l 0 (Z.of_nat n) = take n l.
Proof.
  unfold Py.slice, Py.adjust_index, Py.len.
  change (0 <? 0) with false; cbv iota.
  destruct (Z.ltb_spec (Z.of_nat n) 0) as [Hneg | _]; [lia |].
  rewrite (Z.min_l 0) by lia. change (Z.to_nat 0) with 0%nat.
  rewrite drop_0, Z.sub_0_r.
  destruct (decide (n ≤ length l)%nat) as [Hle | Hgt].
  - rewrite Z.min_l by lia. by rewrite Nat2Z.id.
  - rewrite Z.min_r by lia. rewrite Nat2Z.id.
    rewrite !take_ge; [done | lia | lia].
Qed.

Lemma slice_length_le {A} (l : list A) (start stop : Z) :
  (length (Py.slice l start stop) ≤ length l)%nat.
Proof.
  unfold Py.slice. rewrite length_take, length_drop. lia.
Qed.

Lemma zip_lookup {A B} (xs : list A) (ys : list B) (i : nat) (x : A) (y : B) :
  xs !! i = Some x -> ys !! i = Some y -> Py.zip xs ys !! i = Some (x, y).
Proof.
  revert ys i. induction xs as [| x' xs IH]; intros [| y' ys] [| i]; simpl;
    try discriminate; eauto.
  intros ? ?; by simplify_eq.
Qed.

Lemma all_isnan_spec (attr : list spec_float) :
  Py.all (map Py.isnan attr) = true <-> Forall (fun x => x = S754_nan) attr.
Proof.
  unfold Py.all. induction attr as [| x attr IH]; simpl.
  - split; [constructor | done].
  - rewrite andb_true_iff, IH, Forall_cons. unfold Datatypes.id.
    destruct x; simpl; intuition congruence.
Qed.

(** ** Attributed positions *)

(** What line 113 and line 115 test, on the resolved positions. *)
Lemma check_attribute_positions_raises (max_length : Z) (attr_pos_start attr_pos_end : option Z) :
  raises_ValueError (check_attribute_positions max_length attr_pos_start attr_pos_end) = true
  <-> (resolve_start attr_pos_start >= resolve_end max_length attr_pos_end
       \/ resolve_start attr_pos_start < 1).
Proof.
  unfold check_attribute_positions.
  destruct (Z.gtb_spec (resolve_start attr_pos_start) (resolve_end max_length attr_pos_end));
    destruct (Z.ltb_spec (resolve_start attr_pos_start) 1);
    destruct (Z.eqb_spec (resolve_start attr_pos_start) (resolve_end max_length attr_pos_end));
    simpl; split; intros; try done; lia.
Qed.

Lemma check_attribute_positions_total (max_length : Z) (attr_pos_start attr_pos_end : option Z) :
  is_ok (check_attribute_positions max_length attr_pos_start attr_pos_end)
  = negb (raises_ValueError (check_attribute_positions max_length attr_pos_start attr_pos_end)).
Proof.
  unfold check_attribute_positions.
  repeat match goal with |- context [if ?b then _ else _] => destruct b end; done.
Qed.

Lemma check_attribute_positions_ok (max_length : Z) (attr_pos_start attr_pos_end : option Z) (r : Z * Z) :
  check_attribute_positions max_length attr_pos_start attr_pos_end = Ok r ->
  r = (resolve_start attr_pos_start, resolve_end max_length attr_pos_end)
  /\ 1 <= resolve_start attr_pos_start < resolve_end max_length attr_pos_end.
Proof.
  unfold check_attribute_positions.
  destruct (Z.gtb_spec (resolve_start attr_pos_start) (resolve_end max_length attr_pos_end));
    destruct (Z.ltb_spec (resolve_start attr_pos_start) 1);
    destruct (Z.eqb_spec (resolve_start attr_pos_start) (resolve_end max_length attr_pos_end));
    simpl; intros; simplify_eq; split; (done || lia).
Qed.

Lemma resolve_end_le (max_length : Z) (attr_pos_end : option Z) :
  resolve_end max_length attr_pos_end <= max_length.
Proof.
  destruct attr_pos_end as [e |]; simpl; [| lia].
  destruct (Z.gtb_spec e max_length); lia.
Qed.

(** C1. The docstring promises a [ValueError] exactly when the resolved
    start is greater or equal than the resolved end or is below 0. With
    [max_length = 5], [attr_pos_start = 0] and no [attr_pos_end] the
    documented condition is false, and the call raises all the same: the
    guard compares the start with 1. *)
Theorem check_attribute_positions_start_zero :
  check_attribute_positions 5 (Some 0) None
  = Raise (ValueError "Invalid starting position for attribution")
  /\ ~ documented_raise_condition 5 (Some 0) None.
Proof.
  split; [reflexivity |].
  unfold documented_raise_condition; simpl. lia.
Qed.

(** C2. A missing start is read as 1, an end that is missing or greater
    than [max_length] is read as [max_length], any other position is kept,
    and a call that returns hands back exactly these two positions. *)
Theorem check_attribute_positions_returns_resolved
    (max_length : Z) (attr_pos_start attr_pos_end : option Z) (first last : Z) :
  check_attribute_positions max_length attr_pos_start attr_pos_end = Ok (first, last) ->
  (attr_pos_start = None -> first = 1)
  /\ (forall s, attr_pos_start = Some s -> first = s)
  /\ (attr_pos_end = None -> last = max_length)
  /\ (forall e, attr_pos_end = Some e -> e > max_length -> last = max_length)
  /\ (forall e, attr_pos_end = Some e -> e <= max_length -> last = e).
Proof.
  intros Hok. apply check_attribute_positions_ok in Hok as [Heq _].
  injection Heq as -> ->.
  repeat split.
  - by intros ->.
  - by intros s ->.
  - by intros ->.
  - intros e -> He; simpl. destruct (Z.gtb_spec e max_length); lia.
  - intros e -> He; simpl. destruct (Z.gtb_spec e max_length); lia.
Qed.

Lemma check_attribute_positions_returns_resolved_witness :
  check_attribute_positions 10 None (Some 25) = Ok (1, 10)
  /\ ((@None Z = None -> 1 = 1)
      /\ (forall s, @None Z = Some s -> 1 = s)
      /\ (Some 25 = None -> 10 = 10)
      /\ (forall e, Some 25 = Some e -> e > 10 -> 10 = 10)
      /\ (forall e, Some 25 = Some e -> e <= 10 -> 10 = e)).
Proof.
  split; [reflexivity |].
  apply (check_attribute_positions_returns_resolved 10 None (Some 25) 1 10).
  reflexivity.
Defined.

(** C3. The positions returned by [check_attribute_positions] satisfy
    [1 <= start < end <= max_length]. *)
Theorem check_attribute_positions_range
    (max_length : Z) (attr_pos_start attr_pos_end : option Z) (first last : Z) :
  check_attribute_positions max_length attr_pos_start attr_pos_end = Ok (first, last) ->
  1 <= first < last /\ last <= max_length.
Proof.
  intros Hok. apply check_attribute_positions_ok in Hok as [Heq Hlt].
  injection Heq as -> ->.
  split; [done | apply resolve_end_le].
Qed.

Lemma check_attribute_positions_range_witness :
  check_attribute_positions 7 (Some 2) (Some 6) = Ok (2, 6)
  /\ (1 <= 2 < 6 /\ 6 <= 7).
Proof.
  split; [reflexivity |].
  apply (check_attribute_positions_range 7 (Some 2) (Some 6) 2 6).
  reflexivity.
Defined.

(** ** Rescaled attributions *)

(** C10. For an attribution sequence and a token sequence at the same
    index, the result at that index is empty when every entry of the
    attribution sequence is NaN and is its first [len(tokens)] entries
    otherwise; in both cases it is no longer than the token sequence. *)
Theorem rescale_attributions_to_tokens_lookup
    (attributions : list (list spec_float)) (tokens : list (list string))
    (i : nat) (attr : list spec_float) (toks : list string) :
  attributions !! i = Some attr ->
  tokens !! i = Some toks ->
  exists rescaled,
    rescale_attributions_to_tokens attributions tokens !! i = Some rescaled
    /\ (Forall (fun x => x = S754_nan) attr -> rescaled = [])
    /\ (~ Forall (fun x => x = S754_nan) attr -> rescaled = take (length toks) attr)
    /\ (length rescaled ≤ length toks)%nat.
Proof.
  intros Hattr Htoks.
  unfold rescale_attributions_to_tokens.
  rewrite list_lookup_fmap, (zip_lookup _ _ _ _ _ Hattr Htoks); simpl.
  eexists; split; [reflexivity |].
  unfold Py.len. rewrite slice_prefix.
  destruct (Py.all (map Py.isnan attr)) eqn:Hall; simpl.
  - apply all_isnan_spec in Hall.
    split; [done | split; [by intros [] | simpl; lia]].
  - assert (~ Forall (fun x => x = S754_nan) attr) as Hnot.
    { rewrite <- all_isnan_spec. congruence. }
    split; [by intros ? | split; [done |]].
    rewrite length_take. lia.
Qed.

Lemma rescale_attributions_to_tokens_lookup_witness :
  exists rescaled,
    rescale_attributions_to_tokens
      [[S754_nan; S754_nan]; [S754_zero false; S754_nan; S754_infinity true]]
      [["a"]; ["b"; "c"]] !! 1%nat = Some rescaled
    /\ (Forall (fun x => x = S754_nan) [S754_zero false; S754_nan; S754_infinity true]
        -> rescaled = [])
    /\ (~ Forall (fun x => x = S754_nan) [S754_zero false; S754_nan; S754_infinity true]
        -> rescaled = take (length ["b"; "c"]) [S754_zero false; S754_nan; S754_infinity true])
    /\ (length rescaled ≤ length ["b"; "c"])%nat.
Proof.
  apply (rescale_attributions_to_tokens_lookup
           [[S754_nan; S754_nan]; [S754_zero false; S754_nan; S754_infinity true]]
           [["a"]; ["b"; "c"]] 1
           [S754_zero false; S754_nan; S754_infinity true] ["b"; "c"]);
    reflexivity.
Defined.

(** ** Token slices *)

Section TokenSlices.
Context {Tensor ModelOutput : Type}.

(** The positions built on lines 39 and 40 are read back in range: with
    [done] the sequences already visited, the comprehension yields the
    slice of every remaining sequence. *)
Lemma tok2string_slices_from
    (first : list string -> Z) (last : list string -> Z)
    (done rest : list (list string)) :
  tok2string_slices (map first (done ++ rest)) (map last (done ++ rest)) (length done) rest
  = Ok (map (fun tokens => Py.slice tokens (first tokens) (last tokens)) rest).
Proof.
  revert done. induction rest as [| tokens rest IH]; intros done; [reflexivity |].
  cbn [tok2string_slices]. unfold Py.getitem.
  rewrite !list_lookup_fmap, list_lookup_middle by reflexivity.
  cbn [fmap option_fmap option_map result_bind].
  specialize (IH (done ++ [tokens])%list).
  rewrite <- (assoc_L app), length_app, Nat.add_1_r in IH. cbn [app] in IH.
  by rewrite IH.
Qed.

(** C9. [tok2string] reads a missing [start] as 0 for every sequence and a
    missing [end] as the length of each sequence, and the argument handed
    to [convert_tokens_to_string] is the list of the slices
    [tokens[start:end]], one per sequence and in order. *)
Theorem tok2string_passes_slices
    (attribution_model : @AttributionModel Tensor ModelOutput)
    (token_lists : list (list string)) (start end_ : option Z) (as_targets : bool) :
  tok2string attribution_model token_lists start end_ as_targets
  = Ok (convert_tokens_to_string attribution_model
          (described_slices token_lists start end_) as_targets).
Proof.
  unfold tok2string.
  pose proof (tok2string_slices_from
                (fun _ => match start with None => 0 | Some s => s end)
                (fun tokens => match end_ with None => Py.len tokens | Some e => e end)
                [] token_lists) as Hslices.
  cbn [app length] in Hslices. rewrite Hslices. cbn [result_bind].
  reflexivity.
Qed.

End TokenSlices.

(** ** Ordered dictionaries *)

Lemma odict_get_set_eq {V} (d : ODict.t V) (k : string) (v : V) :
  ODict.get (ODict.set d k v) k = Some v.
Proof.
  induction d as [| [k' v'] d IH]; simpl.
  - by rewrite String.eqb_refl.
  - destruct (String.eqb_spec k k') as [-> | Hne]; simpl.
    + by rewrite String.eqb_refl.
    + by destruct (String.eqb_spec k k').
Qed.

Lemma odict_get_set_ne {V} (d : ODict.t V) (k k' : string) (v : V) :
  k ≠ k' -> ODict.get (ODict.set d k v) k' = ODict.get d k'.
Proof.
  intros Hne. induction d as [| [k0 v0] d IH]; simpl.
  - by destruct (String.eqb_spec k' k); [congruence |].
  - destruct (String.eqb_spec k k0) as [-> | Hk]; simpl.
    + by destruct (String.eqb_spec k' k0); [congruence |].
    + by rewrite IH.
Qed.

Lemma odict_get_Some_keys {V} (d : ODict.t V) (k : string) :
  is_Some (ODict.get d k) <-> k ∈ ODict.keys d.
Proof.
  unfold ODict.keys. induction d as [| [k' v'] d IH]; simpl.
  - split; [by intros [? ?] | by intros ?%elem_of_nil].
  - rewrite elem_of_cons. destruct (String.eqb_spec k k') as [-> | Hne].
    + split; [by left | by eauto].
    + rewrite IH. split; [by right | by intros [? | ?]].
Qed.

Lemma odict_get_None_keys {V} (d : ODict.t V) (k : string) :
  ODict.get d k = None <-> k ∉ ODict.keys d.
Proof. rewrite <- odict_get_Some_keys, eq_None_not_Some. done. Qed.

(** ** The step-score registry *)

Section Registry.
Context {Tensor ModelOutput Value : Type}.
Variable unsqueeze_last : Tensor -> Tensor.
Variable extract_signature_args :
  gmap string Value -> @StepScoreFn Tensor ModelOutput Value -> list string -> bool
  -> gmap string Value * gmap string Value.
Variables output2prob output2ent output2ce output2ppl : @StepScoreFn Tensor ModelOutput Value.

Local Notation State := (@State Tensor ModelOutput Value).
Local Notation StepScoreFn := (@StepScoreFn Tensor ModelOutput Value).



Lemma register_aggregate_map_registry
    (identifier : string) (items : list (string * (Tensor -> Tensor))) (s : State) :
  STEP_SCORES_MAP (register_aggregate_map identifier items s).2 = STEP_SCORES_MAP s.
Proof.
  revert s. induction items as [| [agg_name agg_fn] items IH]; intros s; [reflexivity |].
  cbn [register_aggregate_map]. unfold mbind, M_bind, gets, modify, raise.
  destruct (DEFAULT_ATTRIBUTION_AGGREGATE_DICT s !! "step_scores"); [| reflexivity].
  destruct (register_aggregate_map identifier items _) as [[u | e] s'] eqn:Hrec;
    apply (f_equal snd) in Hrec; simpl in Hrec; subst s'; cbn [snd];
    by rewrite IH.
Qed.

Lemma register_step_score_registry
    (fn : StepScoreFn) (identifier : string)
    (aggregate_map : option (ODict.t (Tensor -> Tensor))) (s : State) :
  STEP_SCORES_MAP (register_step_score fn identifier aggregate_map s).2
  = ODict.set (STEP_SCORES_MAP s) identifier fn.
Proof.
  unfold register_step_score, mbind, M_bind, modify.
  destruct aggregate_map as [items |]; [| reflexivity].
  destruct (register_aggregate_map identifier items _) as [[u | e] s'] eqn:Hrec;
    apply (f_equal snd) in Hrec; simpl in Hrec; subst s'; cbn [snd];
    by rewrite register_aggregate_map_registry.
Qed.

(** C5. As the module is imported the registry holds the four identifiers
    [probability], [entropy], [crossentropy] and [perplexity], which is what
    [list_step_scores] returns; after [register_step_score fn identifier]
    the registry maps [identifier] to [fn] and [list_step_scores] lists
    [identifier]. *)
Theorem step_score_registry_contents :
  (forall aggregate_dict,
     let s0 := initial_state output2prob output2ent output2ce output2ppl aggregate_dict in
     ODict.keys (STEP_SCORES_MAP s0) = ["probability"; "entropy"; "crossentropy"; "perplexity"]
     /\ list_step_scores s0
        = (Ok ["probability"; "entropy"; "crossentropy"; "perplexity"], s0))
  /\ (forall (s : State) fn identifier aggregate_map,
        let s' := (register_step_score fn identifier aggregate_map s).2 in
        ODict.get (STEP_SCORES_MAP s') identifier = Some fn
        /\ exists identifiers,
             list_step_scores s' = (Ok identifiers, s') /\ identifier ∈ identifiers).
Proof.
  split.
  - intros aggregate_dict s0. split; reflexivity.
  - intros s fn identifier aggregate_map s'.
    assert (ODict.get (STEP_SCORES_MAP s') identifier = Some fn) as Hget.
    { subst s'. rewrite register_step_score_registry. apply odict_get_set_eq. }
    split; [exact Hget |].
    exists (ODict.keys (STEP_SCORES_MAP s')). split; [reflexivity |].
    apply odict_get_Some_keys. by rewrite Hget.
Qed.

(** ** Keyword arguments *)


(** The loop over [step_scores] only reads the state; it raises at the
    first identifier that is not registered. *)
Lemma collect_step_scores_args_state
    (kwargs : gmap string Value) (default_args step_scores : list string)
    (extra : gmap string Value) (s : State) :
  (collect_step_scores_args extract_signature_args kwargs default_args step_scores extra s).2 = s.
Proof.
  revert extra. induction step_scores as [| step_score rest IH]; intros extra; [reflexivity |].
  cbn [collect_step_scores_args]. unfold mbind, M_bind, gets, raise.
  destruct (ODict.get (STEP_SCORES_MAP s) step_score); [apply IH | reflexivity].
Qed.


Lemma collect_step_scores_args_ok
    (kwargs : gmap string Value) (default_args step_scores : list string)
    (extra : gmap string Value) (s : State) :
  raises_AttributeError (collect_step_scores_args extract_signature_args kwargs default_args step_scores extra s).1 = false ->
  (collect_step_scores_args extract_signature_args kwargs default_args step_scores extra s).1
  = Ok (foldl (fun extra step_score =>
                 match ODict.get (STEP_SCORES_MAP s) step_score with
                 | Some step_fn =>
                     (extract_signature_args kwargs step_fn default_args false).1 ∪ extra
                 | None => extra
                 end)
              extra step_scores).
Proof.
  revert extra. induction step_scores as [| step_score rest IH]; intros extra; [reflexivity |].
  cbn [collect_step_scores_args foldl]. unfold mbind, M_bind, gets, raise.
  destruct (ODict.get (STEP_SCORES_MAP s) step_score); [apply IH | done].
Qed.


End Registry.

Section KeywordArgs.
Context {Tensor ModelOutput Value : Type}.
Variable unsqueeze_last : Tensor -> Tensor.
Variable extract_signature_args :
  gmap string Value -> @StepScoreFn Tensor ModelOutput Value -> list string -> bool
  -> gmap string Value * gmap string Value.

Local Notation State := (@State Tensor ModelOutput Value).
Local Notation StepScoreFn := (@StepScoreFn Tensor ModelOutput Value).

(** A dictionary created by [{}] is none of the dictionaries that exist. *)
Lemma fresh_dict_unallocated (h : gmap loc (gmap string Value)) :
  h !! fresh (dom h) = None.
Proof. apply not_elem_of_dom, is_fresh. Qed.

(** [kwargs.pop(name, {})] returns the dictionary passed under [name], or a
    new empty one, and leaves every other dictionary as it was. *)
Lemma pop_dict_spec (entry : option loc) (s : State) :
  (forall l, entry = Some l -> is_Some (heap s !! l)) ->
  exists l s',
    pop_dict entry s = (Ok l, s')
    /\ STEP_SCORES_MAP s' = STEP_SCORES_MAP s
    /\ heap s' !! l = Some (popped_dict s entry)
    /\ (forall l', l' ≠ l -> heap s' !! l' = heap s !! l')
    /\ (entry = Some l \/ (entry = None /\ heap s !! l = None)).
Proof.
  intros Halloc. destruct entry as [l |]; cbn [pop_dict popped_dict].
  - exists l, s. destruct (Halloc l eq_refl) as [d Hd].
    rewrite Hd. repeat split; auto.
  - exists (fresh (dom (heap s))), (set_heap (insert (fresh (dom (heap s))) ∅) s).
    cbn [heap set_heap]. repeat split.
    + apply lookup_insert_eq.
    + intros l' Hne. by apply lookup_insert_ne.
    + right. split; [done | apply fresh_dict_unallocated].
Qed.

(** Three updates in place, on three different dictionaries. *)
Lemma dict_update_distinct
    (h : gmap loc (gmap string Value)) (l1 l2 l3 : loc)
    (d1 d2 d3 x1 x2 x3 : gmap string Value) :
  l1 ≠ l2 -> l1 ≠ l3 -> l2 ≠ l3 ->
  h !! l1 = Some d1 -> h !! l2 = Some d2 -> h !! l3 = Some d3 ->
  let h1 := <[l1 := x1 ∪ default ∅ (h !! l1)]> h in
  let h2 := <[l2 := x2 ∪ default ∅ (h1 !! l2)]> h1 in
  let h3 := <[l3 := x3 ∪ default ∅ (h2 !! l3)]> h2 in
  h3 !! l1 = Some (x1 ∪ d1) /\ h3 !! l2 = Some (x2 ∪ d2) /\ h3 !! l3 = Some (x3 ∪ d3).
Proof.
  intros H12 H13 H23 Hd1 Hd2 Hd3 h1 h2 h3. subst h1 h2 h3.
  repeat split; simplify_map_eq; done.
Qed.

(** What [extract_args] does once the three dictionaries are popped. *)
Lemma extract_args_after_pops
    (attribution_method : @FeatureAttribution Value) (attributed_fn : StepScoreFn)
    (step_scores default_args : list string) (kwargs : @Kwargs Value)
    (s s1 s2 s3 : State) (l1 l2 l3 : loc) :
  pop_dict (kw_attribution_args kwargs) s = (Ok l1, s1) ->
  pop_dict (kw_attributed_fn_args kwargs) s1 = (Ok l2, s2) ->
  pop_dict (kw_step_scores_args kwargs) s2 = (Ok l3, s3) ->
  match (collect_step_scores_args extract_signature_args (kw_others kwargs)
           default_args step_scores ∅ s3).1 with
  | Raise e =>
      extract_args extract_signature_args attribution_method attributed_fn
        step_scores default_args kwargs s = (Raise e, s3)
  | Ok extra =>
      exists s4,
        heap s4 = heap s3
        /\ STEP_SCORES_MAP s4 = STEP_SCORES_MAP s3
        /\ DEFAULT_ATTRIBUTION_AGGREGATE_DICT s4 = DEFAULT_ATTRIBUTION_AGGREGATE_DICT s3
        /\ extract_args extract_signature_args attribution_method attributed_fn
             step_scores default_args kwargs s
           = (Ok (l1, l2, l3),
              (dict_update l3 extra
                 (dict_update l2
                    (extract_signature_args (kw_others kwargs) attributed_fn default_args true).1
                    (dict_update l1
                       (get_attribution_args attribution_method (kw_others kwargs)).1
                       s4).2).2).2)
  end.
Proof.
  intros Hpop1 Hpop2 Hpop3.
  unfold extract_args, mbind, M_bind. rewrite Hpop1, Hpop2, Hpop3.
  destruct (get_attribution_args attribution_method (kw_others kwargs)) as [a1 u1].
  destruct (extract_signature_args (kw_others kwargs) attributed_fn default_args true)
    as [a2 u2].
  pose proof (collect_step_scores_args_state extract_signature_args
                (kw_others kwargs) default_args step_scores ∅ s3) as Hstate.
  destruct (collect_step_scores_args extract_signature_args (kw_others kwargs)
              default_args step_scores ∅ s3) as [[extra | e] s3'];
    cbn [fst snd] in *; subst s3'; [| reflexivity].
  match goal with |- context [bool_decide ?P] => destruct (bool_decide P) end.
  - exists s3. repeat split.
  - eexists (set_warnings _ s3). repeat split.
Qed.

Lemma supplied_dicts_allocated (kwargs : @Kwargs Value) (s : State) :
  Forall (fun l => is_Some (heap s !! l)) (supplied_dicts kwargs) ->
  (forall l, kw_attribution_args kwargs = Some l -> is_Some (heap s !! l))
  /\ (forall l, kw_attributed_fn_args kwargs = Some l -> is_Some (heap s !! l))
  /\ (forall l, kw_step_scores_args kwargs = Some l -> is_Some (heap s !! l)).
Proof.
  unfold supplied_dicts.
  destruct (kw_attribution_args kwargs), (kw_attributed_fn_args kwargs),
    (kw_step_scores_args kwargs); cbn; intros Hall;
    repeat match goal with
      | H : Forall _ (_ :: _) |- _ => apply Forall_cons in H as [? ?]
      end;
    repeat split; intros ? ?; simplify_eq; done.
Qed.

Lemma supplied_dicts_distinct (kwargs : @Kwargs Value) (l l' : loc) :
  NoDup (supplied_dicts kwargs) ->
  (kw_attribution_args kwargs = Some l -> kw_attributed_fn_args kwargs = Some l' -> l ≠ l')
  /\ (kw_attribution_args kwargs = Some l -> kw_step_scores_args kwargs = Some l' -> l ≠ l')
  /\ (kw_attributed_fn_args kwargs = Some l -> kw_step_scores_args kwargs = Some l' -> l ≠ l').
Proof.
  unfold supplied_dicts.
  destruct (kw_attribution_args kwargs), (kw_attributed_fn_args kwargs),
    (kw_step_scores_args kwargs); cbn; intros Hdup;
    repeat split; intros ? ?; simplify_eq;
    repeat match goal with
      | H : NoDup (_ :: _) |- _ => apply NoDup_cons in H as [? ?]
      end; set_solver.
Qed.

(** C8 (as amended). When the dictionaries passed as [attribution_args],
    [attributed_fn_args] and [step_scores_args] are different objects,
    [extract_args] returns three dictionaries, each being the one popped
    from [kwargs] (empty when absent) updated with the keyword arguments
    matched to the attribution method, to [attributed_fn] and to the
    requested step scores. *)
Theorem extract_args_updates_distinct_dicts
    (attribution_method : @FeatureAttribution Value) (attributed_fn : StepScoreFn)
    (step_scores default_args : list string) (kwargs : @Kwargs Value) (s s' : State)
    (attribution_args attributed_fn_args step_scores_args : loc) :
  extract_args extract_signature_args attribution_method attributed_fn
    step_scores default_args kwargs s
  = (Ok (attribution_args, attributed_fn_args, step_scores_args), s') ->
  Forall (fun l => is_Some (heap s !! l)) (supplied_dicts kwargs) ->
  NoDup (supplied_dicts kwargs) ->
  heap s' !! attribution_args
  = Some ((get_attribution_args attribution_method (kw_others kwargs)).1
          ∪ popped_dict s (kw_attribution_args kwargs))
  /\ heap s' !! attributed_fn_args
     = Some ((extract_signature_args (kw_others kwargs) attributed_fn default_args true).1
             ∪ popped_dict s (kw_attributed_fn_args kwargs))
  /\ heap s' !! step_scores_args
     = Some (matched_step_scores_args extract_signature_args (STEP_SCORES_MAP s)
               (kw_others kwargs) default_args step_scores
             ∪ popped_dict s (kw_step_scores_args kwargs)).
Proof.
  intros Hret Halloc Hdup.
  apply supplied_dicts_allocated in Halloc as (Ha1 & Ha2 & Ha3).
  destruct (pop_dict_spec _ s Ha1) as (l1 & s1 & Hp1 & Hreg1 & Hl1 & Hoth1 & Hc1).
  assert (forall l, is_Some (heap s !! l) -> is_Some (heap s1 !! l)) as Hmono1.
  { intros l Hl. destruct (decide (l = l1)) as [-> | Hne]; [by rewrite Hl1 |].
    by rewrite Hoth1. }
  destruct (pop_dict_spec (kw_attributed_fn_args kwargs) s1)
    as (l2 & s2 & Hp2 & Hreg2 & Hl2 & Hoth2 & Hc2); [by auto |].
  assert (forall l, is_Some (heap s1 !! l) -> is_Some (heap s2 !! l)) as Hmono2.
  { intros l Hl. destruct (decide (l = l2)) as [-> | Hne]; [by rewrite Hl2 |].
    by rewrite Hoth2. }
  destruct (pop_dict_spec (kw_step_scores_args kwargs) s2)
    as (l3 & s3 & Hp3 & Hreg3 & Hl3 & Hoth3 & Hc3); [by auto |].
  (* the three dictionaries are pairwise different *)
  assert (l1 ≠ l2) as H12.
  { destruct Hc2 as [He2 | [He2 Hnone]].
    - destruct Hc1 as [He1 | [He1 Hnone]].
      + by apply (proj1 (supplied_dicts_distinct kwargs l1 l2 Hdup)).
      + intros ->. destruct (Ha2 _ He2) as [? ?]. congruence.
    - intros ->. congruence. }
  assert (l1 ≠ l3) as H13.
  { destruct Hc3 as [He3 | [He3 Hnone]].
    - destruct Hc1 as [He1 | [He1 Hnone]].
      + by apply (proj1 (proj2 (supplied_dicts_distinct kwargs l1 l3 Hdup))).
      + intros ->. destruct (Ha3 _ He3) as [? ?]. congruence.
    - intros ->. destruct (Hmono2 l3) as [? ?]; [by rewrite Hl1 | congruence]. }
  assert (l2 ≠ l3) as H23.
  { destruct Hc3 as [He3 | [He3 Hnone]].
    - destruct Hc2 as [He2 | [He2 Hnone]].
      + by apply (proj2 (proj2 (supplied_dicts_distinct kwargs l2 l3 Hdup))).
      + intros ->. destruct (Hmono1 l3 (Ha3 _ He3)) as [? ?]. congruence.
    - intros ->. congruence. }
  (* what they hold after the three pops *)
  assert (popped_dict s1 (kw_attributed_fn_args kwargs)
          = popped_dict s (kw_attributed_fn_args kwargs)) as Hd2.
  { destruct Hc2 as [He2 | [He2 _]]; rewrite He2; cbn; [| done].
    by rewrite Hoth1. }
  assert (popped_dict s2 (kw_step_scores_args kwargs)
          = popped_dict s (kw_step_scores_args kwargs)) as Hd3.
  { destruct Hc3 as [He3 | [He3 _]]; rewrite He3; cbn; [| done].
    by rewrite Hoth2, Hoth1. }
  pose proof (extract_args_after_pops attribution_method attributed_fn
                step_scores default_args kwargs s s1 s2 s3 l1 l2 l3 Hp1 Hp2 Hp3) as Hrun.
  pose proof (collect_step_scores_args_ok extract_signature_args (kw_others kwargs)
                default_args step_scores ∅ s3) as Hok.
  destruct (collect_step_scores_args extract_signature_args (kw_others kwargs)
              default_args step_scores ∅ s3).1 as [extra | e]; [| congruence].
  specialize (Hok eq_refl). injection Hok as ->.
  destruct Hrun as (s4 & Hheap4 & _ & _ & Hrun).
  rewrite Hrun in Hret. injection Hret as <- <- <- <-.
  unfold dict_update, modify, matched_step_scores_args. cbn [snd heap set_heap].
  rewrite Hheap4, Hreg3, Hreg2, Hreg1.
  apply dict_update_distinct; auto.
  - rewrite Hoth3, Hoth2 by done. exact Hl1.
  - rewrite Hoth3 by done. by rewrite Hl2, Hd2.
  - by rewrite Hl3, Hd3.
Qed.

End KeywordArgs.

Section Frame.
Context {Tensor ModelOutput Value : Type}.
Variable unsqueeze_last : Tensor -> Tensor.
Variable extract_signature_args :
  gmap string Value -> @StepScoreFn Tensor ModelOutput Value -> list string -> bool
  -> gmap string Value * gmap string Value.

Local Notation State := (@State Tensor ModelOutput Value).
Local Notation StepScoreFn := (@StepScoreFn Tensor ModelOutput Value).






(** [register_step_score] does write to the registry. *)
Lemma register_step_score_writes
    (fn : StepScoreFn) (identifier : string) (s : State) :
  identifier ∉ ODict.keys (STEP_SCORES_MAP s) ->
  STEP_SCORES_MAP (state_after unsqueeze_last extract_signature_args
                     (RegisterStepScore fn identifier None) s)
  ≠ STEP_SCORES_MAP s.
Proof.
  intros Hnew Heq. apply Hnew, odict_get_Some_keys.
  rewrite <- Heq. cbn [state_after].
  rewrite register_step_score_registry, odict_get_set_eq. eauto.
Qed.

End Frame.

(** ** Arguments for the attribution library *)

Section FormatArgs.
Context {Tensor ModelOutput Value : Type}.
Variable unsqueeze_last : Tensor -> Tensor.

Local Notation StepScoreFn := (@StepScoreFn Tensor ModelOutput Value).

(** Neither layout has an entry named [baselines]. *)
Lemma format_attribute_args_encoder_decoder_keys
    (batch : @EncoderDecoderBatch Tensor) (target_ids : Tensor) (attributed_fn : StepScoreFn)
    (attribute_target : bool) (attributed_fn_args : ODict.t Value)
    (is_layer_attribution : bool) :
  dom (format_attribute_args_encoder_decoder unsqueeze_last batch target_ids attributed_fn
         attribute_target attributed_fn_args is_layer_attribution).1
  = {[ "inputs"; "additional_forward_args" ]}.
Proof.
  unfold format_attribute_args_encoder_decoder.
  destruct is_layer_attribution, attribute_target; cbn [negb fst];
    rewrite ?dom_insert_L, dom_empty_L; set_solver.
Qed.

Lemma format_attribute_args_decoder_only_keys
    (batch : @Batch Tensor) (target_ids : Tensor) (attributed_fn : StepScoreFn)
    (attributed_fn_args : ODict.t Value) (is_layer_attribution : bool) :
  dom (format_attribute_args_decoder_only unsqueeze_last batch target_ids attributed_fn
         attributed_fn_args is_layer_attribution).1
  = {[ "inputs"; "additional_forward_args" ]}.
Proof.
  unfold format_attribute_args_decoder_only.
  destruct is_layer_attribution; cbn [fst];
    rewrite ?dom_insert_L, dom_empty_L; set_solver.
Qed.

(** C7. With [is_encoder_decoder] set, [format_attribute_args] returns the
    dictionary built by [format_attribute_args_encoder_decoder] (which is
    given [attribute_target]); otherwise it returns the one built by
    [format_attribute_args_decoder_only]. The returned dictionary has an
    entry [baselines] exactly when [use_baseline] is set. *)
Theorem format_attribute_args_dispatch
    (target_ids : Tensor) (attributed_fn : StepScoreFn)
    (attribute_target : bool) (attributed_fn_args : ODict.t Value)
    (is_layer_attribution use_baseline : bool) :
  (forall batch : @EncoderDecoderBatch Tensor,
     format_attribute_args unsqueeze_last (EncDec batch) target_ids attributed_fn
       attribute_target attributed_fn_args is_layer_attribution use_baseline true
     = Ok (let '(attribute_fn_args, baselines) :=
             format_attribute_args_encoder_decoder unsqueeze_last batch target_ids
               attributed_fn attribute_target attributed_fn_args is_layer_attribution in
           if use_baseline
           then <["baselines" := baselines]> attribute_fn_args
           else attribute_fn_args))
  /\ (forall batch : @Batch Tensor,
        format_attribute_args unsqueeze_last (DecOnly batch) target_ids attributed_fn
          attribute_target attributed_fn_args is_layer_attribution use_baseline false
        = Ok (let '(attribute_fn_args, baselines) :=
                format_attribute_args_decoder_only unsqueeze_last batch target_ids
                  attributed_fn attributed_fn_args is_layer_attribution in
              if use_baseline
              then <["baselines" := baselines]> attribute_fn_args
              else attribute_fn_args))
  /\ (forall (batch : @AnyBatch Tensor) (is_encoder_decoder : bool) attribute_fn_args,
        format_attribute_args unsqueeze_last batch target_ids attributed_fn
          attribute_target attributed_fn_args is_layer_attribution use_baseline
          is_encoder_decoder
        = Ok attribute_fn_args ->
        "baselines" ∈ dom attribute_fn_args <-> use_baseline = true).
Proof.
  split; [| split].
  - intros batch. unfold format_attribute_args, apply_encoder_decoder.
    cbn [result_bind].
    by destruct (format_attribute_args_encoder_decoder _ _ _ _ _ _ _).
  - intros batch. unfold format_attribute_args, apply_decoder_only.
    cbn [result_bind].
    by destruct (format_attribute_args_decoder_only _ _ _ _ _ _).
  - intros batch is_encoder_decoder attribute_fn_args.
    unfold format_attribute_args, apply_encoder_decoder, apply_decoder_only.
    destruct is_encoder_decoder, batch as [batch | batch]; cbn [result_bind];
      try discriminate.
    + pose proof (format_attribute_args_encoder_decoder_keys batch target_ids
                    attributed_fn attribute_target attributed_fn_args
                    is_layer_attribution) as Hkeys.
      destruct (format_attribute_args_encoder_decoder _ _ _ _ _ _ _) as [d b].
      cbn [fst] in Hkeys. intros [= <-].
      destruct use_baseline; rewrite ?dom_insert_L, Hkeys; set_solver.
    + pose proof (format_attribute_args_decoder_only_keys batch target_ids
                    attributed_fn attributed_fn_args is_layer_attribution) as Hkeys.
      destruct (format_attribute_args_decoder_only _ _ _ _ _ _) as [d b].
      cbn [fst] in Hkeys. intros [= <-].
      destruct use_baseline; rewrite ?dom_insert_L, Hkeys; set_solver.
Qed.

End FormatArgs.

(** ** The instance of [Example] *)

(** One dictionary passed both as [attribution_args] and as
    [attributed_fn_args], with [n_steps=5, temperature=2]: the call returns
    that dictionary twice, and it holds [temperature], an argument of the
    attributed function and not of the attribution method. *)
Lemma extract_args_shared_dict_run :
  let run := extract_args signature_args Example.stepwise_method Example.scaled_score
               [] [] Example.shared_kwargs Example.one_dict in
  run.1 = Ok (0%nat, 0%nat, 1%nat)
  /\ heap run.2 !! 0%nat ≫= (fun d => d !! "temperature") = Some 2
  /\ ((get_attribution_args Example.stepwise_method (kw_others Example.shared_kwargs)).1
      ∪ popped_dict Example.one_dict (kw_attribution_args Example.shared_kwargs))
     !! "temperature" = None.
Proof. repeat split; vm_compute; reflexivity. Qed.

(** C8 as stated fails when two of the names carry one dictionary: the
    dictionary returned as attribution arguments also holds [temperature],
    the argument matched to the attributed function. *)
Lemma extract_args_shared_dict_counterexample :
  ~ returns_updated_dicts signature_args Example.stepwise_method Example.scaled_score
      [] [] Example.shared_kwargs Example.one_dict.
Proof.
  intros Hclaim.
  destruct extract_args_shared_dict_run as (Hret & Hheap & Hexpected).
  destruct (Hclaim 0%nat 0%nat 1%nat
              (extract_args signature_args Example.stepwise_method Example.scaled_score
                 [] [] Example.shared_kwargs Example.one_dict).2) as (Hfirst & _).
  { apply injective_projections; [exact Hret | reflexivity]. }
  apply (f_equal (fun o : option (gmap string Z) =>
                    o ≫= (fun d : gmap string Z => d !! "temperature"))) in Hfirst.
  discriminate (eq_trans (eq_trans (eq_sym Hheap) Hfirst) Hexpected).
Qed.

Lemma extract_args_updates_distinct_dicts_witness :
  let run := extract_args signature_args Example.stepwise_method Example.scaled_score
               ["probability"] [] Example.separate_kwargs Example.three_dicts in
  heap run.2 !! 0%nat
  = Some ((get_attribution_args Example.stepwise_method
             (kw_others Example.separate_kwargs)).1
          ∪ popped_dict Example.three_dicts (kw_attribution_args Example.separate_kwargs))
  /\ heap run.2 !! 1%nat
     = Some ((signature_args (kw_others Example.separate_kwargs)
                Example.scaled_score [] true).1
             ∪ popped_dict Example.three_dicts
                 (kw_attributed_fn_args Example.separate_kwargs))
  /\ heap run.2 !! 2%nat
     = Some (matched_step_scores_args signature_args
               (STEP_SCORES_MAP Example.three_dicts)
               (kw_others Example.separate_kwargs) [] ["probability"]
             ∪ popped_dict Example.three_dicts
                 (kw_step_scores_args Example.separate_kwargs)).
Proof.
  apply (extract_args_updates_distinct_dicts signature_args
           Example.stepwise_method Example.scaled_score ["probability"] []
           Example.separate_kwargs Example.three_dicts _ 0%nat 1%nat 2%nat).
  - apply injective_projections; [vm_compute; reflexivity | reflexivity].
  - apply (bool_decide_unpack _). vm_compute. reflexivity.
  - apply (bool_decide_unpack _). vm_compute. reflexivity.
Defined.


Lemma format_attribute_args_dispatch_witness :
  format_attribute_args (ModelOutput := unit) Z.succ (DecOnly Example.batch) 7
    Example.scaled_score false [("temperature", 2)] false true false
  = Ok (<["baselines" := PTuple [PTensor 5]]>
          (format_attribute_args_decoder_only Z.succ Example.batch 7
             Example.scaled_score [("temperature", 2)] false).1)
  /\ ("baselines" ∈ dom (<["baselines" := PTuple [PTensor 5]]>
                          (format_attribute_args_decoder_only Z.succ Example.batch 7
                             Example.scaled_score [("temperature", 2)] false).1)
      <-> true = true).
Proof.
  split; [reflexivity |].
  apply (proj2 (proj2 (format_attribute_args_dispatch Z.succ 7 Example.scaled_score
                         false [("temperature", 2)] false true))
           (DecOnly Example.batch) false).
  reflexivity.
Defined.

(** * Further properties *)

(** ** Slices with non-negative bounds *)

(** For bounds [0 <= a <= b], [l[a:b]] is [b - a] elements after skipping
    [a], however the bounds compare with [len(l)]. *)
Lemma slice_nonneg {A} (l : list A) (a b : nat) :
  (a ≤ b)%nat ->
  Py.slice l (Z.of_nat a) (Z.of_nat b) = take (b - a) (drop a l).
Proof.
  intros Hab. unfold Py.slice, Py.adjust_index, Py.len.
  destruct (Z.ltb_spec (Z.of_nat a) 0) as [? | _]; [lia |].
  destruct (Z.ltb_spec (Z.of_nat b) 0) as [? | _]; [lia |].
  destruct (decide (length l ≤ a)%nat) as [Hout | Hin].
  - rewrite (drop_ge l a) by done.
    rewrite (drop_ge l) by lia. by rewrite !take_nil.
  - rewrite (Z.min_l (Z.of_nat a)) by lia. rewrite Nat2Z.id.
    destruct (decide (b ≤ length l)%nat) as [Hb | Hb].
    + rewrite Z.min_l by lia. f_equal. lia.
    + rewrite Z.min_r by lia.
      rewrite !take_ge; [done | rewrite length_drop; lia | rewrite length_drop; lia].
Qed.

(** [l[a:]], read as [l[a:len(l)]]. *)
Lemma slice_suffix {A} (l : list A) (a : nat) :
  Py.slice l (Z.of_nat a) (Py.len l) = drop a l.
Proof.
  unfold Py.len. destruct (decide (a ≤ length l)%nat) as [Hle | Hgt].
  - rewrite slice_nonneg by done. apply take_ge. rewrite length_drop. lia.
  - unfold Py.slice, Py.adjust_index, Py.len.
    destruct (Z.ltb_spec (Z.of_nat a) 0) as [? | _]; [lia |].
    destruct (Z.ltb_spec (Z.of_nat (length l)) 0) as [? | _]; [lia |].
    rewrite (drop_ge l a) by lia. by rewrite drop_ge, take_nil by lia.
Qed.

(** Cutting a sequence at [a <= b <= c] and gluing the four pieces. *)
Lemma slices_partition {A} (l : list A) (a b c : nat) :
  (a ≤ b)%nat -> (b ≤ c)%nat ->
  (Py.slice l 0 (Z.of_nat a) ++ Py.slice l (Z.of_nat a) (Z.of_nat b)
   ++ Py.slice l (Z.of_nat b) (Z.of_nat c) ++ Py.slice l (Z.of_nat c) (Py.len l))%list
  = l.
Proof.
  intros Hab Hbc.
  rewrite slice_prefix, !slice_nonneg, slice_suffix by done.
  assert (forall i j, (i ≤ j)%nat -> (take (j - i) (drop i l) ++ drop j l)%list = drop i l)
    as Hglue.
  { intros i j Hij. replace (drop j l) with (drop (j - i) (drop i l)).
    - apply take_drop.
    - rewrite drop_drop. f_equal. lia. }
  rewrite (Hglue b c Hbc), (Hglue a b Hab). apply take_drop.
Qed.

Section TokenSlicesMore.
Context {Tensor ModelOutput : Type}.

(** The value of [tok2string], by the positions it resolves. *)
Lemma tok2string_run
    (attribution_model : @AttributionModel Tensor ModelOutput)
    (token_lists : list (list string)) (start end_ : option Z) (as_targets : bool) :
  tok2string attribution_model token_lists start end_ as_targets
  = Ok (convert_tokens_to_string attribution_model
          (map (fun tokens =>
                  Py.slice tokens (default 0 start) (default (Py.len tokens) end_))
               token_lists)
          as_targets).
Proof.
  unfold tok2string.
  pose proof (tok2string_slices_from
                (fun _ => match start with None => 0 | Some s => s end)
                (fun tokens => match end_ with None => Py.len tokens | Some e => e end)
                [] token_lists) as Hslices.
  cbn [app length] in Hslices. rewrite Hslices. reflexivity.
Qed.

(** X1. Called without [start] and [end], [tok2string] hands every token
    sequence whole and in order to [convert_tokens_to_string]. *)
Theorem tok2string_defaults_pass_whole_sequences
    (attribution_model : @AttributionModel Tensor ModelOutput)
    (token_lists : list (list string)) (as_targets : bool) :
  tok2string attribution_model token_lists None None as_targets
  = Ok (convert_tokens_to_string attribution_model token_lists as_targets).
Proof.
  rewrite tok2string_run. do 2 f_equal.
  rewrite <- (map_id token_lists) at 2. apply map_ext. intros tokens.
  cbn [default]. unfold Py.len. rewrite slice_prefix. apply firstn_all.
Qed.

(** X2. Whatever [start] and [end] are (negative or past the end
    included), [tok2string] hands over one slice per sequence, and no slice
    is longer than the sequence it is cut from. *)
Theorem tok2string_slices_fit
    (attribution_model : @AttributionModel Tensor ModelOutput)
    (token_lists : list (list string)) (start end_ : option Z) (as_targets : bool) :
  exists slices,
    tok2string attribution_model token_lists start end_ as_targets
    = Ok (convert_tokens_to_string attribution_model slices as_targets)
    /\ Forall2 (fun slice tokens => (length slice ≤ length tokens)%nat)
         slices token_lists.
Proof.
  eexists. split; [apply tok2string_run |].
  apply Forall2_fmap_l, Forall_Forall2_diag, Forall_forall.
  intros tokens _. apply slice_length_le.
Qed.

(** X3. For [0 <= start <= step + 1 <= end], the four texts returned by
    [get_split_targets] are the conversions of four lists of slices that cut
    every target sequence into consecutive pieces: glued back in order, the
    pieces of a sequence give the sequence. *)
Theorem get_split_targets_partition
    (attribution_model : @AttributionModel Tensor ModelOutput)
    (targets : list (list string)) (start end_ step : Z) :
  0 <= start -> start <= step + 1 -> step + 1 <= end_ ->
  exists skipped attributed unattributed rest : list (list string),
    get_split_targets attribution_model targets start end_ step
    = Ok (convert_tokens_to_string attribution_model skipped true,
          convert_tokens_to_string attribution_model attributed true,
          convert_tokens_to_string attribution_model unattributed true,
          convert_tokens_to_string attribution_model rest true)
    /\ forall (i : nat) (tokens : list string),
         targets !! i = Some tokens ->
         exists s a u r,
           skipped !! i = Some s /\ attributed !! i = Some a
           /\ unattributed !! i = Some u /\ rest !! i = Some r
           /\ (s ++ a ++ u ++ r)%list = tokens.
Proof.
  intros H0 H1 H2. unfold get_split_targets.
  rewrite !tok2string_run. cbn [result_bind default].
  eexists _, _, _, _. split; [reflexivity |].
  intros i tokens Hi. rewrite !list_lookup_fmap, Hi. cbn [fmap option_fmap option_map].
  eexists _, _, _, _. repeat (split; [reflexivity |]).
  rewrite <- (Z2Nat.id start), <- (Z2Nat.id (step + 1)), <- (Z2Nat.id end_) by lia.
  apply slices_partition; lia.
Qed.

End TokenSlicesMore.

(** ** Attributed positions, once more *)

(** X4. The positions returned by [check_attribute_positions] pass the
    check unchanged when they are given back with the same [max_length]. *)
Theorem check_attribute_positions_idempotent
    (max_length : Z) (attr_pos_start attr_pos_end : option Z) (first last : Z) :
  check_attribute_positions max_length attr_pos_start attr_pos_end = Ok (first, last) ->
  check_attribute_positions max_length (Some first) (Some last) = Ok (first, last).
Proof.
  intros Hok. apply check_attribute_positions_ok in Hok as [Heq Hrange].
  injection Heq as -> ->.
  pose proof (resolve_end_le max_length attr_pos_end) as Hle.
  unfold check_attribute_positions. cbn [resolve_start resolve_end].
  destruct (Z.gtb_spec (resolve_end max_length attr_pos_end) max_length); [lia |].
  destruct (Z.gtb_spec (resolve_start attr_pos_start) (resolve_end max_length attr_pos_end));
    [lia |].
  destruct (Z.ltb_spec (resolve_start attr_pos_start) 1); [lia |].
  destruct (Z.eqb_spec (resolve_start attr_pos_start) (resolve_end max_length attr_pos_end));
    [lia | reflexivity].
Qed.

Lemma check_attribute_positions_idempotent_witness :
  check_attribute_positions 10 (Some 3) (Some 25) = Ok (3, 10)
  /\ check_attribute_positions 10 (Some 3) (Some 10) = Ok (3, 10).
Proof.
  split; [reflexivity |].
  apply (check_attribute_positions_idempotent 10 (Some 3) (Some 25) 3 10).
  reflexivity.
Defined.

(** X5. When [max_length] is at most 1 there is nothing to attribute:
    whatever positions are asked for, [check_attribute_positions] raises
    [ValueError]. *)
Theorem check_attribute_positions_short_sequence
    (max_length : Z) (attr_pos_start attr_pos_end : option Z) :
  max_length <= 1 ->
  raises_ValueError (check_attribute_positions max_length attr_pos_start attr_pos_end) = true.
Proof.
  intros Hshort. apply check_attribute_positions_raises.
  pose proof (resolve_end_le max_length attr_pos_end). lia.
Qed.

Lemma check_attribute_positions_short_sequence_witness :
  raises_ValueError (check_attribute_positions 1 (Some 1) (Some 4)) = true.
Proof.
  apply (check_attribute_positions_short_sequence 1 (Some 1) (Some 4)). lia.
Defined.

(** X6. Called with [max_length] alone, [check_attribute_positions] returns
    [(1, max_length)] when [max_length] is at least 2 and raises otherwise. *)
Theorem check_attribute_positions_defaults (max_length : Z) :
  (2 <= max_length ->
   check_attribute_positions max_length None None = Ok (1, max_length))
  /\ (max_length < 2 ->
      raises_ValueError (check_attribute_positions max_length None None) = true).
Proof.
  unfold check_attribute_positions. cbn [resolve_start resolve_end].
  destruct (Z.gtb_spec 1 max_length); destruct (Z.eqb_spec 1 max_length);
    cbn; split; intros; (reflexivity || lia).
Qed.

Lemma check_attribute_positions_defaults_witness :
  check_attribute_positions 12 None None = Ok (1, 12)
  /\ raises_ValueError (check_attribute_positions 1 None None) = true.
Proof.
  split.
  - apply (proj1 (check_attribute_positions_defaults 12)). lia.
  - apply (proj2 (check_attribute_positions_defaults 1)). lia.
Defined.

(** ** Tokens paired with ids *)

Lemma zip_length {A B} (xs : list A) (ys : list B) :
  length (Py.zip xs ys) = (length xs `min` length ys)%nat.
Proof.
  revert ys. induction xs as [| x xs IH]; intros [| y ys]; simpl; auto.
Qed.

Lemma zip_fst {A B} (xs : list A) (ys : list B) :
  length xs = length ys -> map fst (Py.zip xs ys) = xs.
Proof.
  revert ys. induction xs as [| x xs IH]; intros [| y ys]; simpl; try done.
  intros [= Hlen]. by rewrite IH.
Qed.

Lemma zip_snd {A B} (xs : list A) (ys : list B) :
  length xs = length ys -> map snd (Py.zip xs ys) = ys.
Proof.
  revert ys. induction xs as [| x xs IH]; intros [| y ys]; simpl; try done.
  intros [= Hlen]. by rewrite IH.
Qed.

(** X7. [join_token_ids] stops at the shorter argument at both levels: it
    returns as many rows as the shorter of [tokens] and [ids], and the row at
    an index holds as many pairs as the shorter of the two sequences at that
    index. *)
Theorem join_token_ids_shape (tokens : list (list string)) (ids : list (list Z)) :
  length (join_token_ids tokens ids) = (length tokens `min` length ids)%nat
  /\ forall (i : nat) (tok_seq : list string) (idx_seq : list Z),
       tokens !! i = Some tok_seq -> ids !! i = Some idx_seq ->
       exists row,
         join_token_ids tokens ids !! i = Some row
         /\ length row = (length tok_seq `min` length idx_seq)%nat.
Proof.
  unfold join_token_ids. split.
  - by rewrite length_map, zip_length.
  - intros i tok_seq idx_seq Htok Hidx.
    rewrite list_lookup_fmap, (zip_lookup _ _ _ _ _ Htok Hidx).
    eexists; split; [reflexivity |]. by rewrite length_map, zip_length.
Qed.

Lemma join_token_ids_shape_witness :
  exists row,
    join_token_ids [["a"; "b"; "c"]; ["d"]] [[1; 2]; [3]; [4]] !! 0%nat = Some row
    /\ length row = (length ["a"; "b"; "c"] `min` length [1; 2])%nat.
Proof.
  apply (proj2 (join_token_ids_shape [["a"; "b"; "c"]; ["d"]] [[1; 2]; [3]; [4]])
           0%nat ["a"; "b"; "c"] [1; 2]); reflexivity.
Defined.

Lemma join_row_tokens (tok_seq : list string) (idx_seq : list Z) :
  length tok_seq = length idx_seq ->
  map token (map (fun '(token, id) => {| token := token; id := id |})
               (Py.zip tok_seq idx_seq)) = tok_seq
  /\ map (fun pair : TokenWithId => id pair)
        (map (fun '(token, id) => {| token := token; id := id |})
           (Py.zip tok_seq idx_seq)) = idx_seq.
Proof.
  intros Hlen. rewrite !map_map. split.
  - rewrite <- (zip_fst tok_seq idx_seq Hlen) at 2. apply map_ext. by intros [? ?].
  - rewrite <- (zip_snd tok_seq idx_seq Hlen) at 2. apply map_ext. by intros [? ?].
Qed.

(** X8. When [tokens] and [ids] have the same shape, nothing is lost:
    reading the tokens of the pairs gives back [tokens] and reading their ids
    gives back [ids]. *)
Theorem join_token_ids_round_trip (tokens : list (list string)) (ids : list (list Z)) :
  Forall2 (fun tok_seq idx_seq => length tok_seq = length idx_seq) tokens ids ->
  map (map token) (join_token_ids tokens ids) = tokens
  /\ map (map (fun pair : TokenWithId => id pair)) (join_token_ids tokens ids) = ids.
Proof.
  unfold join_token_ids.
  induction 1 as [| tok_seq idx_seq tokens ids Hlen _ [IHtok IHids]]; [done |].
  destruct (join_row_tokens tok_seq idx_seq Hlen) as [Htok Hids].
  cbn [Py.zip map]. split.
  - by rewrite Htok, IHtok.
  - by rewrite Hids, IHids.
Qed.

Lemma join_token_ids_round_trip_witness :
  map (map token) (join_token_ids [["a"; "b"]; ["c"]] [[7; 8]; [9]]) = [["a"; "b"]; ["c"]]
  /\ map (map (fun pair : TokenWithId => id pair))
        (join_token_ids [["a"; "b"]; ["c"]] [[7; 8]; [9]]) = [[7; 8]; [9]].
Proof.
  apply (join_token_ids_round_trip [["a"; "b"]; ["c"]] [[7; 8]; [9]]).
  repeat constructor.
Defined.

(** ** Rescaled attributions, once more *)

(** X9. [rescale_attributions_to_tokens] returns one sequence per pair of
    an attribution sequence and a token sequence: as many as the shorter of its
    two arguments. *)
Theorem rescale_attributions_to_tokens_length
    (attributions : list (list spec_float)) (tokens : list (list string)) :
  length (rescale_attributions_to_tokens attributions tokens)
  = (length attributions `min` length tokens)%nat.
Proof. unfold rescale_attributions_to_tokens. by rewrite length_map, zip_length. Qed.

(** X10. An attribution sequence that has an entry other than NaN and is
    no longer than its token sequence is returned as it is. *)
Theorem rescale_attributions_to_tokens_fitting
    (attributions : list (list spec_float)) (tokens : list (list string))
    (i : nat) (attr : list spec_float) (toks : list string) :
  attributions !! i = Some attr ->
  tokens !! i = Some toks ->
  Exists (fun x => x ≠ S754_nan) attr ->
  (length attr ≤ length toks)%nat ->
  rescale_attributions_to_tokens attributions tokens !! i = Some attr.
Proof.
  intros Hattr Htoks Hsome Hfit.
  unfold rescale_attributions_to_tokens.
  rewrite list_lookup_fmap, (zip_lookup _ _ _ _ _ Hattr Htoks). cbn.
  destruct (Py.all (map Py.isnan attr)) eqn:Hall.
  - apply all_isnan_spec in Hall. apply Exists_exists in Hsome as (x & Hx & Hnan).
    rewrite Forall_forall in Hall. destruct Hnan. by apply Hall.
  - cbn. unfold Py.len. rewrite slice_prefix. by rewrite take_ge.
Qed.

Lemma rescale_attributions_to_tokens_fitting_witness :
  rescale_attributions_to_tokens
    [[S754_nan]; [S754_nan; S754_zero false]] [["a"]; ["b"; "c"; "d"]] !! 1%nat
  = Some [S754_nan; S754_zero false].
Proof.
  apply (rescale_attributions_to_tokens_fitting
           [[S754_nan]; [S754_nan; S754_zero false]] [["a"]; ["b"; "c"; "d"]] 1
           [S754_nan; S754_zero false] ["b"; "c"; "d"]).
  - reflexivity.
  - reflexivity.
  - apply Exists_cons_tl, Exists_cons_hd. discriminate.
  - simpl. lia.
Defined.

(** ** The registry, once more *)

Lemma odict_keys_set {V} (d : ODict.t V) (k : string) (v : V) :
  ODict.keys (ODict.set d k v)
  = if bool_decide (k ∈ ODict.keys d) then ODict.keys d else (ODict.keys d ++ [k])%list.
Proof.
  unfold ODict.keys. induction d as [| [k' v'] d IH]; cbn [ODict.set map fst].
  - case_bool_decide as Hin; [by apply elem_of_nil in Hin | done].
  - destruct (String.eqb_spec k k') as [-> | Hne]; cbn [map fst].
    + clear IH. case_bool_decide as Hin; [done | destruct Hin; apply elem_of_cons; by left].
    + rewrite IH. clear IH.
      case_bool_decide as Hd; case_bool_decide as Hc; try done; exfalso.
      * apply Hc, elem_of_cons. by right.
      * apply elem_of_cons in Hc as [? | ?]; done.
Qed.

Section RegistryMore.
Context {Tensor ModelOutput Value : Type}.

Local Notation State := (@State Tensor ModelOutput Value).
Local Notation StepScoreFn := (@StepScoreFn Tensor ModelOutput Value).

(** X11. Registering a new identifier puts it last in what
    [list_step_scores] returns; registering an identifier that is already
    there (one of the four built-in ones, say) leaves the listing as it was. *)
Theorem register_step_score_listing
    (fn : StepScoreFn) (identifier : string)
    (aggregate_map : option (ODict.t (Tensor -> Tensor))) (s : State) :
  (list_step_scores (register_step_score fn identifier aggregate_map s).2).1
  = Ok (if bool_decide (identifier ∈ ODict.keys (STEP_SCORES_MAP s))
        then ODict.keys (STEP_SCORES_MAP s)
        else (ODict.keys (STEP_SCORES_MAP s) ++ [identifier])%list).
Proof.
  unfold list_step_scores, mbind, M_bind, gets, mret, M_ret. cbn [fst].
  by rewrite register_step_score_registry, odict_keys_set.
Qed.

(** X12. [register_step_score] changes the function of no other
    identifier. *)
Theorem register_step_score_others
    (fn : StepScoreFn) (identifier other : string)
    (aggregate_map : option (ODict.t (Tensor -> Tensor))) (s : State) :
  other ≠ identifier ->
  ODict.get (STEP_SCORES_MAP (register_step_score fn identifier aggregate_map s).2) other
  = ODict.get (STEP_SCORES_MAP s) other.
Proof.
  intros Hne. rewrite register_step_score_registry.
  apply odict_get_set_ne. congruence.
Qed.

(** X13. [list_step_scores] never lists an identifier twice: this holds
    as the module is imported, and [register_step_score] keeps it. *)
Theorem step_score_identifiers_unique
    (output2prob output2ent output2ce output2ppl : StepScoreFn) :
  (forall aggregate_dict,
     NoDup (ODict.keys (STEP_SCORES_MAP
                          (initial_state output2prob output2ent output2ce output2ppl
                             aggregate_dict))))
  /\ (forall (s : State) fn identifier aggregate_map,
        NoDup (ODict.keys (STEP_SCORES_MAP s)) ->
        NoDup (ODict.keys
                 (STEP_SCORES_MAP (register_step_score fn identifier aggregate_map s).2))).
Proof.
  split.
  - intros aggregate_dict. cbn. apply (bool_decide_unpack _). reflexivity.
  - intros s fn identifier aggregate_map Hnodup.
    rewrite register_step_score_registry, odict_keys_set.
    destruct (bool_decide (identifier ∈ ODict.keys (STEP_SCORES_MAP s))) eqn:Hin; [done |].
    apply bool_decide_eq_false in Hin.
    apply NoDup_app. split; [done |]. split; [| apply NoDup_singleton].
    intros x Hx ->%list_elem_of_singleton. done.
Qed.

(** X14. A step score is usable as soon as it is registered:
    [get_step_scores] with its identifier returns what the registered
    function returns on the batch, whatever was registered under that
    identifier before and whether or not the aggregation map could be
    stored. *)
Theorem get_step_scores_after_register
    (fn : StepScoreFn) (identifier : string)
    (aggregate_map : option (ODict.t (Tensor -> Tensor))) (s : State)
    (attribution_model : @AttributionModel Tensor ModelOutput)
    (batch : @EncoderDecoderBatch Tensor) (target_ids : Tensor)
    (step_scores_args : gmap string Value) :
  let s' := (register_step_score fn identifier aggregate_map s).2 in
  get_step_scores (Some attribution_model) batch target_ids identifier step_scores_args s'
  = (call fn
       {| arg_attribution_model := attribution_model;
          arg_forward_output :=
            model attribution_model
              (input_embeds (sources batch)) (input_embeds (targets batch))
              (attention_mask (sources batch)) (attention_mask (targets batch));
          arg_encoder_input_ids := input_ids (sources batch);
          arg_decoder_input_ids := input_ids (targets batch);
          arg_encoder_input_embeds := input_embeds (sources batch);
          arg_decoder_input_embeds := input_embeds (targets batch);
          arg_target_ids := target_ids;
          arg_encoder_attention_mask := attention_mask (sources batch);
          arg_decoder_attention_mask := attention_mask (targets batch) |}
       step_scores_args,
     s').
Proof.
  intros s'. unfold get_step_scores, mbind, M_bind, gets. cbn.
  subst s'. by rewrite register_step_score_registry, odict_get_set_eq.
Qed.

(** X15. [get_step_scores] raises [ValueError] when no attribution model
    is given, registered identifier or not; with a model and an identifier
    that [list_step_scores] does not list it raises [KeyError]. Neither
    touches the module state. *)
Theorem get_step_scores_errors
    (batch : @EncoderDecoderBatch Tensor) (target_ids : Tensor)
    (score_identifier : string) (step_scores_args : gmap string Value) (s : State) :
  get_step_scores None batch target_ids score_identifier step_scores_args s
  = (Raise (ValueError "Attribution model is not set."), s)
  /\ (score_identifier ∉ ODict.keys (STEP_SCORES_MAP s) ->
      forall attribution_model : @AttributionModel Tensor ModelOutput,
        get_step_scores (Some attribution_model) batch target_ids score_identifier
          step_scores_args s
        = (Raise (KeyError score_identifier), s)).
Proof.
  split; [reflexivity |].
  intros Hmissing attribution_model.
  apply odict_get_None_keys in Hmissing.
  unfold get_step_scores, mbind, M_bind, gets. cbn. by rewrite Hmissing.
Qed.

(** The aggregation functions stored under ["step_scores"] after the loop
    over the items of an aggregation map. *)
Lemma register_aggregate_map_run
    (identifier : string) (items : list (string * (Tensor -> Tensor)))
    (s : State) (step_scores : gmap string (gmap string (Tensor -> Tensor))) :
  DEFAULT_ATTRIBUTION_AGGREGATE_DICT s !! "step_scores" = Some step_scores ->
  exists s',
    register_aggregate_map identifier items s = (Ok tt, s')
    /\ DEFAULT_ATTRIBUTION_AGGREGATE_DICT s'
       = <["step_scores" :=
             foldl (fun acc '(agg_name, agg_fn) =>
                      <[agg_name := <[identifier := agg_fn]> (default ∅ (acc !! agg_name))]> acc)
                   step_scores items]>
           (DEFAULT_ATTRIBUTION_AGGREGATE_DICT s).
Proof.
  revert s step_scores. induction items as [| [agg_name agg_fn] items IH];
    intros s step_scores Hkey.
  - exists s. split; [reflexivity |]. cbn. by rewrite insert_id.
  - cbn [register_aggregate_map]. unfold mbind, M_bind, gets, modify. rewrite Hkey.
    edestruct (IH (set_DEFAULT_ATTRIBUTION_AGGREGATE_DICT
                     (insert "step_scores"
                        (<[agg_name := <[identifier := agg_fn]>
                                         (default ∅ (step_scores !! agg_name))]> step_scores))
                     s)) as (s' & Hrun & Hdict).
    { cbn. apply lookup_insert_eq. }
    exists s'. rewrite Hrun. split; [reflexivity |].
    rewrite Hdict. cbn. by rewrite insert_insert_eq.
Qed.

Lemma aggregate_fold_other_name
    (identifier : string) (items : list (string * (Tensor -> Tensor)))
    (step_scores : gmap string (gmap string (Tensor -> Tensor))) (agg_name : string) :
  agg_name ∉ ODict.keys items ->
  foldl (fun acc '(agg_name, agg_fn) =>
           <[agg_name := <[identifier := agg_fn]> (default ∅ (acc !! agg_name))]> acc)
        step_scores items !! agg_name
  = step_scores !! agg_name.
Proof.
  unfold ODict.keys. revert step_scores.
  induction items as [| [a f] items IH]; intros step_scores Hnot; [done |].
  cbn in *. apply not_elem_of_cons in Hnot as [Hne Hnot].
  rewrite IH by done. by rewrite lookup_insert_ne.
Qed.

Lemma aggregate_fold_other_identifier
    (identifier other : string) (items : list (string * (Tensor -> Tensor)))
    (step_scores : gmap string (gmap string (Tensor -> Tensor))) (agg_name : string) :
  other ≠ identifier ->
  match foldl (fun acc '(agg_name, agg_fn) =>
                 <[agg_name := <[identifier := agg_fn]> (default ∅ (acc !! agg_name))]> acc)
              step_scores items !! agg_name with
  | Some by_identifier => by_identifier !! other
  | None => None
  end
  = match step_scores !! agg_name with
    | Some by_identifier => by_identifier !! other
    | None => None
    end.
Proof.
  intros Hne. revert step_scores.
  induction items as [| [a f] items IH]; intros step_scores; [done |].
  cbn [foldl]. rewrite IH.
  destruct (decide (a = agg_name)) as [-> | Ha].
  - rewrite lookup_insert_eq, lookup_insert_ne by congruence.
    by destruct (step_scores !! agg_name).
  - by rewrite lookup_insert_ne.
Qed.

(** X16. When the aggregation dictionary has its ["step_scores"] entry,
    [register_step_score] with an aggregation map returns normally and
    stores every function of the map under its aggregator name and the
    registered identifier. *)
Theorem register_step_score_stores_aggregates
    (fn : StepScoreFn) (identifier : string)
    (items : ODict.t (Tensor -> Tensor)) (s : State)
    (step_scores : gmap string (gmap string (Tensor -> Tensor))) :
  DEFAULT_ATTRIBUTION_AGGREGATE_DICT s !! "step_scores" = Some step_scores ->
  NoDup (ODict.keys items) ->
  (register_step_score fn identifier (Some items) s).1 = Ok tt
  /\ forall agg_name agg_fn,
       (agg_name, agg_fn) ∈ items ->
       stored_aggregate_fn
         (DEFAULT_ATTRIBUTION_AGGREGATE_DICT
            (register_step_score fn identifier (Some items) s).2)
         agg_name identifier
       = Some agg_fn.
Proof.
  intros Hkey Hnodup.
  unfold register_step_score, mbind, M_bind, modify.
  destruct (register_aggregate_map_run identifier items
              (set_STEP_SCORES_MAP (fun registry => ODict.set registry identifier fn) s)
              step_scores Hkey) as (s' & Hrun & Hdict).
  rewrite Hrun. split; [reflexivity |]. cbn [snd].
  intros agg_name agg_fn Hin. unfold stored_aggregate_fn.
  rewrite Hdict, lookup_insert_eq.
  clear Hrun Hdict Hkey. revert step_scores.
  unfold ODict.keys in Hnodup.
  induction items as [| [a f] items IH]; intros step_scores.
  - by apply elem_of_nil in Hin.
  - cbn in Hnodup. apply NoDup_cons in Hnodup as [Hfresh Hnodup].
    apply elem_of_cons in Hin as [[= <- <-] | Hin].
    + cbn [foldl]. rewrite aggregate_fold_other_name by done.
      rewrite lookup_insert_eq. apply lookup_insert_eq.
    + cbn [foldl]. by apply IH.
Qed.

(** X17. Storing the aggregation map writes nowhere else: the entries of
    the aggregation dictionary other than ["step_scores"], the functions
    kept for other identifiers and those kept under aggregator names absent
    from the map are as before. *)
Theorem register_step_score_aggregates_frame
    (fn : StepScoreFn) (identifier : string)
    (items : ODict.t (Tensor -> Tensor)) (s : State)
    (step_scores : gmap string (gmap string (Tensor -> Tensor))) :
  DEFAULT_ATTRIBUTION_AGGREGATE_DICT s !! "step_scores" = Some step_scores ->
  let after :=
    DEFAULT_ATTRIBUTION_AGGREGATE_DICT (register_step_score fn identifier (Some items) s).2 in
  (forall key, key ≠ "step_scores" ->
     after !! key = DEFAULT_ATTRIBUTION_AGGREGATE_DICT s !! key)
  /\ (forall agg_name other,
        other ≠ identifier \/ agg_name ∉ ODict.keys items ->
        stored_aggregate_fn after agg_name other
        = stored_aggregate_fn (DEFAULT_ATTRIBUTION_AGGREGATE_DICT s) agg_name other).
Proof.
  intros Hkey after. subst after.
  unfold register_step_score, mbind, M_bind, modify.
  destruct (register_aggregate_map_run identifier items
              (set_STEP_SCORES_MAP (fun registry => ODict.set registry identifier fn) s)
              step_scores Hkey) as (s' & Hrun & Hdict).
  rewrite Hrun. cbn [snd]. rewrite Hdict. cbn. split.
  - intros key Hne. by rewrite lookup_insert_ne.
  - intros agg_name other Hcase. unfold stored_aggregate_fn.
    rewrite lookup_insert_eq, Hkey. destruct Hcase as [Hne | Hnot].
    + by apply aggregate_fold_other_identifier.
    + by rewrite aggregate_fold_other_name.
Qed.

End RegistryMore.

(** ** Keyword arguments, once more *)

Section KeywordArgsMore.
Context {Tensor ModelOutput Value : Type}.
Variable extract_signature_args :
  gmap string Value -> @StepScoreFn Tensor ModelOutput Value -> list string -> bool
  -> gmap string Value * gmap string Value.

Local Notation State := (@State Tensor ModelOutput Value).
Local Notation StepScoreFn := (@StepScoreFn Tensor ModelOutput Value).

Lemma pop_dict_warnings (entry : option loc) (s : State) :
  warnings (pop_dict entry s).2 = warnings s.
Proof. by destruct entry. Qed.

Lemma supplied_dicts_elem (kwargs : @Kwargs Value) (l : loc) :
  kw_attribution_args kwargs = Some l
  \/ kw_attributed_fn_args kwargs = Some l
  \/ kw_step_scores_args kwargs = Some l ->
  l ∈ supplied_dicts kwargs.
Proof.
  unfold supplied_dicts.
  destruct (kw_attribution_args kwargs), (kw_attributed_fn_args kwargs),
    (kw_step_scores_args kwargs); cbn; intros [? | [? | ?]]; simplify_eq;
    rewrite ?elem_of_cons; auto.
Qed.

(** The three pops of [extract_args], one after the other, when the
    dictionaries passed by the caller exist: no existing dictionary changes,
    each popped dictionary holds what the caller passed (or nothing), and a
    dictionary created on the way differs from the other two. *)
Lemma extract_args_pops (kwargs : @Kwargs Value) (s : State) :
  Forall (fun l => is_Some (heap s !! l)) (supplied_dicts kwargs) ->
  exists l1 l2 l3 s1 s2 s3,
    (pop_dict (kw_attribution_args kwargs) s = (Ok l1, s1)
     /\ pop_dict (kw_attributed_fn_args kwargs) s1 = (Ok l2, s2)
     /\ pop_dict (kw_step_scores_args kwargs) s2 = (Ok l3, s3))
    /\ (warnings s3 = warnings s /\ STEP_SCORES_MAP s3 = STEP_SCORES_MAP s)
    /\ (forall l0, is_Some (heap s !! l0) -> heap s3 !! l0 = heap s !! l0)
    /\ (heap s3 !! l1 = Some (popped_dict s (kw_attribution_args kwargs))
        /\ heap s3 !! l2 = Some (popped_dict s (kw_attributed_fn_args kwargs))
        /\ heap s3 !! l3 = Some (popped_dict s (kw_step_scores_args kwargs)))
    /\ (kw_attribution_args kwargs = Some l1
        \/ kw_attribution_args kwargs = None /\ heap s !! l1 = None /\ l1 ≠ l2 /\ l1 ≠ l3)
    /\ (kw_attributed_fn_args kwargs = Some l2
        \/ kw_attributed_fn_args kwargs = None /\ heap s !! l2 = None /\ l2 ≠ l1 /\ l2 ≠ l3)
    /\ (kw_step_scores_args kwargs = Some l3
        \/ kw_step_scores_args kwargs = None /\ heap s !! l3 = None /\ l3 ≠ l1 /\ l3 ≠ l2).
Proof.
  intros Halloc.
  apply supplied_dicts_allocated in Halloc as (Ha1 & Ha2 & Ha3).
  destruct (pop_dict_spec _ s Ha1) as (l1 & s1 & Hp1 & Hreg1 & Hl1 & Hoth1 & Hc1).
  assert (forall l, is_Some (heap s !! l) -> heap s1 !! l = heap s !! l) as Hk1.
  { intros l [d Hd]. destruct (decide (l = l1)) as [-> | Hne]; [| by apply Hoth1].
    rewrite Hl1. destruct Hc1 as [-> | [_ Hnone]]; [| congruence].
    cbn. by rewrite Hd. }
  destruct (pop_dict_spec (kw_attributed_fn_args kwargs) s1)
    as (l2 & s2 & Hp2 & Hreg2 & Hl2 & Hoth2 & Hc2).
  { intros l Hl. rewrite Hk1; auto. }
  assert (forall l, is_Some (heap s1 !! l) -> heap s2 !! l = heap s1 !! l) as Hk2.
  { intros l [d Hd]. destruct (decide (l = l2)) as [-> | Hne]; [| by apply Hoth2].
    rewrite Hl2. destruct Hc2 as [-> | [_ Hnone]]; [| congruence].
    cbn. by rewrite Hd. }
  destruct (pop_dict_spec (kw_step_scores_args kwargs) s2)
    as (l3 & s3 & Hp3 & Hreg3 & Hl3 & Hoth3 & Hc3).
  { intros l Hl. rewrite Hk2, Hk1; auto. rewrite Hk1; auto. }
  assert (forall l, is_Some (heap s2 !! l) -> heap s3 !! l = heap s2 !! l) as Hk3.
  { intros l [d Hd]. destruct (decide (l = l3)) as [-> | Hne]; [| by apply Hoth3].
    rewrite Hl3. destruct Hc3 as [-> | [_ Hnone]]; [| congruence].
    cbn. by rewrite Hd. }
  assert (forall l, is_Some (heap s !! l) -> heap s3 !! l = heap s !! l) as Hk.
  { intros l Hl. rewrite Hk3, Hk2, Hk1; auto; rewrite ?Hk2, ?Hk1; auto.
    rewrite Hk1; auto. }
  assert (forall (entry : option loc) (s' : State),
            (forall l, is_Some (heap s !! l) -> heap s' !! l = heap s !! l) ->
            (forall l, entry = Some l -> is_Some (heap s !! l)) ->
            popped_dict s' entry = popped_dict s entry) as Hpopped.
  { intros [l |] s' Hkeep Hin; cbn; [| done]. rewrite Hkeep; auto. }
  assert (is_Some (heap s1 !! l1)) as Hs1 by (rewrite Hl1; eauto).
  assert (is_Some (heap s2 !! l2)) as Hs2 by (rewrite Hl2; eauto).
  assert (is_Some (heap s2 !! l1)) as Hs21 by (rewrite Hk2; auto).
  exists l1, l2, l3, s1, s2, s3.
  split; [done |]. split.
  { pose proof (pop_dict_warnings (kw_attributed_fn_args kwargs) s1) as Hw2.
    pose proof (pop_dict_warnings (kw_attribution_args kwargs) s) as Hw1.
    pose proof (pop_dict_warnings (kw_step_scores_args kwargs) s2) as Hw3.
    rewrite Hp1 in Hw1. rewrite Hp2 in Hw2. rewrite Hp3 in Hw3. cbn [snd] in *.
    split; congruence. }
  split; [exact Hk |]. split.
  { split; [| split].
    - rewrite Hk3, Hk2; auto.
    - rewrite Hk3; auto. rewrite Hl2. f_equal. apply Hpopped; auto.
    - rewrite Hl3. f_equal. apply Hpopped; auto.
      intros l Hl. rewrite Hk2, Hk1; auto. rewrite Hk1; auto. }
  split; [| split].
  - destruct Hc1 as [? | [? Hn1]]; [by left | right].
    repeat split; [done | done | |].
    + intros ->. destruct Hc2 as [He | [_ Hn2]]; [| congruence].
      destruct (Ha2 _ He) as [? ?]. congruence.
    + intros ->. destruct Hc3 as [He | [_ Hn3]].
      * destruct (Ha3 _ He) as [? ?]. congruence.
      * destruct Hs21 as [? ?]. congruence.
  - destruct Hc2 as [? | [? Hn2]]; [by left | right].
    assert (heap s !! l2 = None) as Hn.
    { destruct (heap s !! l2) eqn:Hl; [exfalso | done].
      assert (is_Some (heap s !! l2)) as Hsome by (by rewrite Hl).
      apply Hk1 in Hsome. congruence. }
    repeat split; [done | done | |].
    + intros ->. destruct Hs1 as [? ?]. congruence.
    + intros ->. destruct Hc3 as [He | [_ Hn3]].
      * destruct (Ha3 _ He) as [? ?]. congruence.
      * destruct Hs2 as [? ?]. congruence.
  - destruct Hc3 as [? | [? Hn3]]; [by left | right].
    assert (heap s !! l3 = None) as Hn.
    { destruct (heap s !! l3) eqn:Hl; [exfalso | done].
      assert (is_Some (heap s !! l3)) as Hsome by (by rewrite Hl).
      pose proof (Hk1 _ Hsome) as H1. rewrite <- H1 in Hsome.
      apply Hk2 in Hsome. congruence. }
    repeat split; [done | done | |].
    + intros ->. destruct Hs21 as [? ?]. congruence.
    + intros ->. destruct Hs2 as [? ?]. congruence.
Qed.

(** Three updates in place on dictionaries that may be one and the same. *)
Lemma dict_update_shared
    (h : gmap loc (gmap string Value)) (l1 l2 l3 : loc)
    (d1 d2 d3 x1 x2 x3 : gmap string Value) :
  h !! l1 = Some d1 -> h !! l2 = Some d2 -> h !! l3 = Some d3 ->
  let h1 := <[l1 := x1 ∪ default ∅ (h !! l1)]> h in
  let h2 := <[l2 := x2 ∪ default ∅ (h1 !! l2)]> h1 in
  let h3 := <[l3 := x3 ∪ default ∅ (h2 !! l3)]> h2 in
  h3 !! l1
  = Some (let once := x1 ∪ d1 in
          let twice := if bool_decide (l2 = l1) then x2 ∪ once else once in
          if bool_decide (l3 = l1) then x3 ∪ twice else twice)
  /\ h3 !! l2
     = Some (let once := if bool_decide (l1 = l2) then x1 ∪ d2 else d2 in
             let twice := x2 ∪ once in
             if bool_decide (l3 = l2) then x3 ∪ twice else twice)
  /\ h3 !! l3
     = Some (let once := if bool_decide (l1 = l3) then x1 ∪ d3 else d3 in
             let twice := if bool_decide (l2 = l3) then x2 ∪ once else once in
             x3 ∪ twice).
Proof.
  intros Hd1 Hd2 Hd3 h1 h2 h3. subst h1 h2 h3. cbn zeta.
  repeat split; repeat case_bool_decide; simplify_map_eq; done.
Qed.

(** X18. When [extract_args] raises, the dictionaries that existed before
    the call (those passed as [attribution_args], [attributed_fn_args] and
    [step_scores_args] included) are as they were, and nothing is logged. *)
Theorem extract_args_raise_leaves_dicts
    (attribution_method : @FeatureAttribution Value) (attributed_fn : StepScoreFn)
    (step_scores default_args : list string) (kwargs : @Kwargs Value) (s s' : State)
    (e : exception) :
  extract_args extract_signature_args attribution_method attributed_fn
    step_scores default_args kwargs s = (Raise e, s') ->
  Forall (fun l => is_Some (heap s !! l)) (supplied_dicts kwargs) ->
  (forall l, is_Some (heap s !! l) -> heap s' !! l = heap s !! l)
  /\ warnings s' = warnings s.
Proof.
  intros Hret Halloc.
  destruct (extract_args_pops kwargs s Halloc)
    as (l1 & l2 & l3 & s1 & s2 & s3 & (Hp1 & Hp2 & Hp3) & (Hw & _) & Hkeep & _).
  pose proof (extract_args_after_pops extract_signature_args attribution_method
                attributed_fn step_scores default_args kwargs s s1 s2 s3 l1 l2 l3
                Hp1 Hp2 Hp3) as Hrun.
  destruct (collect_step_scores_args extract_signature_args (kw_others kwargs)
              default_args step_scores ∅ s3).1 as [extra | e'].
  - destruct Hrun as (s4 & _ & _ & _ & Hrun). congruence.
  - rewrite Hrun in Hret. injection Hret as _ <-. by split.
Qed.

(** X19. Each dictionary returned by [extract_args] is the very object the
    caller passed under the corresponding name; for a name the caller left
    out it is a new object, none of those that existed before the call. *)
Theorem extract_args_returns_callers_dicts
    (attribution_method : @FeatureAttribution Value) (attributed_fn : StepScoreFn)
    (step_scores default_args : list string) (kwargs : @Kwargs Value) (s s' : State)
    (attribution_args attributed_fn_args step_scores_args : loc) :
  extract_args extract_signature_args attribution_method attributed_fn
    step_scores default_args kwargs s
  = (Ok (attribution_args, attributed_fn_args, step_scores_args), s') ->
  Forall (fun l => is_Some (heap s !! l)) (supplied_dicts kwargs) ->
  match kw_attribution_args kwargs with
  | Some supplied => attribution_args = supplied
  | None => heap s !! attribution_args = None
  end
  /\ match kw_attributed_fn_args kwargs with
     | Some supplied => attributed_fn_args = supplied
     | None => heap s !! attributed_fn_args = None
     end
  /\ match kw_step_scores_args kwargs with
     | Some supplied => step_scores_args = supplied
     | None => heap s !! step_scores_args = None
     end.
Proof.
  intros Hret Halloc.
  destruct (extract_args_pops kwargs s Halloc)
    as (l1 & l2 & l3 & s1 & s2 & s3 & (Hp1 & Hp2 & Hp3) & _ & _ & _ & Hc1 & Hc2 & Hc3).
  pose proof (extract_args_after_pops extract_signature_args attribution_method
                attributed_fn step_scores default_args kwargs s s1 s2 s3 l1 l2 l3
                Hp1 Hp2 Hp3) as Hrun.
  destruct (collect_step_scores_args extract_signature_args (kw_others kwargs)
              default_args step_scores ∅ s3).1 as [extra | e'].
  - destruct Hrun as (s4 & _ & _ & _ & Hrun). rewrite Hrun in Hret.
    injection Hret as <- <- <- _.
    repeat split.
    + destruct Hc1 as [-> | (-> & ? & _)]; [congruence | done].
    + destruct Hc2 as [-> | (-> & ? & _)]; [congruence | done].
    + destruct Hc3 as [-> | (-> & ? & _)]; [congruence | done].
  - congruence.
Qed.

(** X20. [extract_args] writes to the three dictionaries it returns and to
    no other: a dictionary that existed before the call and was not passed
    under one of the three names is as it was. *)
Theorem extract_args_leaves_other_dicts
    (attribution_method : @FeatureAttribution Value) (attributed_fn : StepScoreFn)
    (step_scores default_args : list string) (kwargs : @Kwargs Value) (s s' : State)
    (attribution_args attributed_fn_args step_scores_args : loc) (other : loc) :
  extract_args extract_signature_args attribution_method attributed_fn
    step_scores default_args kwargs s
  = (Ok (attribution_args, attributed_fn_args, step_scores_args), s') ->
  Forall (fun l => is_Some (heap s !! l)) (supplied_dicts kwargs) ->
  is_Some (heap s !! other) ->
  other ∉ supplied_dicts kwargs ->
  heap s' !! other = heap s !! other.
Proof.
  intros Hret Halloc Hother Hnot.
  destruct (extract_args_pops kwargs s Halloc)
    as (l1 & l2 & l3 & s1 & s2 & s3 & (Hp1 & Hp2 & Hp3) & _ & Hkeep & _ & Hc1 & Hc2 & Hc3).
  assert (other ≠ l1 /\ other ≠ l2 /\ other ≠ l3) as (Hn1 & Hn2 & Hn3).
  { destruct Hother as [d Hd]. repeat split; intros ->.
    - destruct Hc1 as [He | (_ & ? & _)]; [| congruence].
      apply Hnot, supplied_dicts_elem. auto.
    - destruct Hc2 as [He | (_ & ? & _)]; [| congruence].
      apply Hnot, supplied_dicts_elem. auto.
    - destruct Hc3 as [He | (_ & ? & _)]; [| congruence].
      apply Hnot, supplied_dicts_elem. auto. }
  pose proof (extract_args_after_pops extract_signature_args attribution_method
                attributed_fn step_scores default_args kwargs s s1 s2 s3 l1 l2 l3
                Hp1 Hp2 Hp3) as Hrun.
  destruct (collect_step_scores_args extract_signature_args (kw_others kwargs)
              default_args step_scores ∅ s3).1 as [extra | e']; [| congruence].
  destruct Hrun as (s4 & Hheap4 & _ & _ & Hrun). rewrite Hrun in Hret.
  injection Hret as <- <- <- <-.
  unfold dict_update, modify. cbn [snd heap set_heap].
  rewrite !lookup_insert_ne by done. rewrite Hheap4. by apply Hkeep.
Qed.

(** X21. The updates are made in place and in the order attribution
    arguments, attributed-function arguments, step-score arguments: a
    dictionary passed under several names receives the update of each of
    them, a later update overriding an earlier one on a common key. *)
Theorem extract_args_updates_in_place
    (attribution_method : @FeatureAttribution Value) (attributed_fn : StepScoreFn)
    (step_scores default_args : list string) (kwargs : @Kwargs Value) (s s' : State)
    (attribution_args attributed_fn_args step_scores_args : loc) :
  extract_args extract_signature_args attribution_method attributed_fn
    step_scores default_args kwargs s
  = (Ok (attribution_args, attributed_fn_args, step_scores_args), s') ->
  Forall (fun l => is_Some (heap s !! l)) (supplied_dicts kwargs) ->
  let extra_attribution_args :=
    (get_attribution_args attribution_method (kw_others kwargs)).1 in
  let extra_attributed_fn_args :=
    (extract_signature_args (kw_others kwargs) attributed_fn default_args true).1 in
  let extra_step_scores_args :=
    matched_step_scores_args extract_signature_args (STEP_SCORES_MAP s)
      (kw_others kwargs) default_args step_scores in
  heap s' !! attribution_args
  = Some (let once :=
            extra_attribution_args ∪ popped_dict s (kw_attribution_args kwargs) in
          let twice :=
            if bool_decide (attributed_fn_args = attribution_args)
            then extra_attributed_fn_args ∪ once else once in
          if bool_decide (step_scores_args = attribution_args)
          then extra_step_scores_args ∪ twice else twice)
  /\ heap s' !! attributed_fn_args
     = Some (let once :=
               if bool_decide (attribution_args = attributed_fn_args)
               then extra_attribution_args ∪ popped_dict s (kw_attributed_fn_args kwargs)
               else popped_dict s (kw_attributed_fn_args kwargs) in
             let twice := extra_attributed_fn_args ∪ once in
             if bool_decide (step_scores_args = attributed_fn_args)
             then extra_step_scores_args ∪ twice else twice)
  /\ heap s' !! step_scores_args
     = Some (let once :=
               if bool_decide (attribution_args = step_scores_args)
               then extra_attribution_args ∪ popped_dict s (kw_step_scores_args kwargs)
               else popped_dict s (kw_step_scores_args kwargs) in
             let twice :=
               if bool_decide (attributed_fn_args = step_scores_args)
               then extra_attributed_fn_args ∪ once else once in
             extra_step_scores_args ∪ twice).
Proof.
  intros Hret Halloc e1 e2 e3. subst e1 e2 e3.
  destruct (extract_args_pops kwargs s Halloc)
    as (l1 & l2 & l3 & s1 & s2 & s3 & (Hp1 & Hp2 & Hp3) & (_ & Hreg) & _
        & (Hl1 & Hl2 & Hl3) & _).
  pose proof (extract_args_after_pops extract_signature_args attribution_method
                attributed_fn step_scores default_args kwargs s s1 s2 s3 l1 l2 l3
                Hp1 Hp2 Hp3) as Hrun.
  pose proof (collect_step_scores_args_ok extract_signature_args (kw_others kwargs)
                default_args step_scores ∅ s3) as Hok.
  destruct (collect_step_scores_args extract_signature_args (kw_others kwargs)
              default_args step_scores ∅ s3).1 as [extra | e']; [| congruence].
  specialize (Hok eq_refl). injection Hok as ->.
  destruct Hrun as (s4 & Hheap4 & _ & _ & Hrun). rewrite Hrun in Hret.
  injection Hret as <- <- <- <-.
  unfold dict_update, modify, matched_step_scores_args. cbn [snd heap set_heap].
  rewrite Hheap4, Hreg.
  by apply dict_update_shared.
Qed.

End KeywordArgsMore.

(** ** Arguments for the attribution library, once more *)

Section FormatArgsMore.
Context {Tensor ModelOutput Value : Type}.
Variable unsqueeze_last : Tensor -> Tensor.

Local Notation StepScoreFn := (@StepScoreFn Tensor ModelOutput Value).

(** X22. When [format_attribute_args] returns with [use_baseline] set,
    [inputs] and [baselines] are tuples of the same length: two tensors each
    for an encoder-decoder batch with [attribute_target], one each
    otherwise. *)
Theorem format_attribute_args_baselines_match
    (batch : @AnyBatch Tensor) (target_ids : Tensor) (attributed_fn : StepScoreFn)
    (attribute_target : bool) (attributed_fn_args : ODict.t Value)
    (is_layer_attribution is_encoder_decoder : bool)
    (attribute_fn_args : gmap string (@PyObj Tensor ModelOutput Value)) :
  format_attribute_args unsqueeze_last batch target_ids attributed_fn attribute_target
    attributed_fn_args is_layer_attribution true is_encoder_decoder
  = Ok attribute_fn_args ->
  exists inputs baselines,
    attribute_fn_args !! "inputs" = Some (PTuple inputs)
    /\ attribute_fn_args !! "baselines" = Some (PTuple baselines)
    /\ length inputs = length baselines
    /\ length inputs = (if is_encoder_decoder && attribute_target then 2 else 1)%nat.
Proof.
  unfold format_attribute_args, apply_encoder_decoder, apply_decoder_only,
    format_attribute_args_encoder_decoder, format_attribute_args_decoder_only.
  destruct is_encoder_decoder, batch as [batch | batch]; cbn [result_bind];
    try discriminate;
    destruct is_layer_attribution, attribute_target; cbn [negb andb app];
    intros [= <-]; eexists _, _;
    (split; [by simplify_map_eq |]); (split; [by simplify_map_eq |]); done.
Qed.

(** X23. For an encoder-decoder batch, [inputs] followed by
    [additional_forward_args] is the same sequence of positional arguments
    whether or not the target is attributed: [attribute_target] only moves
    the target embeddings from the head of [additional_forward_args] to the
    end of [inputs]. *)
Theorem format_attribute_args_encoder_decoder_layout
    (batch : @EncoderDecoderBatch Tensor) (target_ids : Tensor) (attributed_fn : StepScoreFn)
    (attributed_fn_args : ODict.t Value) (is_layer_attribution : bool) :
  exists inputs inputs_with_target additional additional_with_target,
    ((format_attribute_args_encoder_decoder unsqueeze_last batch target_ids attributed_fn
        false attributed_fn_args is_layer_attribution).1 !! "inputs"
     = Some (PTuple inputs)
     /\ (format_attribute_args_encoder_decoder unsqueeze_last batch target_ids attributed_fn
           false attributed_fn_args is_layer_attribution).1 !! "additional_forward_args"
        = Some (PTuple additional))
    /\ ((format_attribute_args_encoder_decoder unsqueeze_last batch target_ids attributed_fn
           true attributed_fn_args is_layer_attribution).1 !! "inputs"
        = Some (PTuple inputs_with_target)
        /\ (format_attribute_args_encoder_decoder unsqueeze_last batch target_ids
              attributed_fn true attributed_fn_args is_layer_attribution).1
           !! "additional_forward_args"
           = Some (PTuple additional_with_target))
    /\ (inputs ++ additional)%list = (inputs_with_target ++ additional_with_target)%list
    /\ inputs_with_target
       = (inputs ++ [PTensor (input_embeds (targets batch))])%list
    /\ additional
       = PTensor (input_embeds (targets batch)) :: additional_with_target.
Proof.
  unfold format_attribute_args_encoder_decoder.
  destruct is_layer_attribution; cbn [negb fst];
    eexists _, _, _, _;
    (split; [split; by simplify_map_eq |]);
    (split; [split; by simplify_map_eq |]); done.
Qed.

End FormatArgsMore.

(** ** The properties above on the instances of [Example] and [Sample] *)

Lemma get_split_targets_partition_witness :
  exists skipped attributed unattributed rest : list (list string),
    get_split_targets Sample.spaced_model [["a"; "b"; "c"; "d"]; ["e"]] 1 3 1
    = Ok (convert_tokens_to_string Sample.spaced_model skipped true,
          convert_tokens_to_string Sample.spaced_model attributed true,
          convert_tokens_to_string Sample.spaced_model unattributed true,
          convert_tokens_to_string Sample.spaced_model rest true)
    /\ forall (i : nat) (tokens : list string),
         [["a"; "b"; "c"; "d"]; ["e"]] !! i = Some tokens ->
         exists s a u r,
           skipped !! i = Some s /\ attributed !! i = Some a
           /\ unattributed !! i = Some u /\ rest !! i = Some r
           /\ (s ++ a ++ u ++ r)%list = tokens.
Proof.
  apply (get_split_targets_partition Sample.spaced_model
           [["a"; "b"; "c"; "d"]; ["e"]] 1 3 1); lia.
Defined.

Lemma register_step_score_others_witness :
  ODict.get (STEP_SCORES_MAP
               (register_step_score Example.scaled_score "custom" None Example.one_dict).2)
    "entropy"
  = ODict.get (STEP_SCORES_MAP Example.one_dict) "entropy".
Proof.
  apply (register_step_score_others Example.scaled_score "custom" "entropy" None
           Example.one_dict).
  discriminate.
Defined.

Lemma step_score_identifiers_unique_witness :
  NoDup (ODict.keys
           (STEP_SCORES_MAP
              (register_step_score Example.scaled_score "custom" None Example.one_dict).2)).
Proof.
  apply (proj2 (step_score_identifiers_unique Example.scaled_score Example.scaled_score
                  Example.scaled_score Example.scaled_score)
           Example.one_dict Example.scaled_score "custom" None).
  apply (bool_decide_unpack _). vm_compute. reflexivity.
Defined.

Lemma get_step_scores_errors_witness :
  get_step_scores (Some Sample.spaced_model) Sample.batch 7 "surprisal" ∅ Example.one_dict
  = (Raise (KeyError "surprisal"), Example.one_dict).
Proof.
  apply (proj2 (get_step_scores_errors Sample.batch 7 "surprisal" ∅ Example.one_dict)).
  apply (bool_decide_unpack _). vm_compute. reflexivity.
Defined.

Lemma register_step_score_stores_aggregates_witness :
  (register_step_score Example.scaled_score "custom"
     (Some [("span_aggregate", Z.succ); ("sequence_aggregate", Z.pred)])
     Example.one_dict).1 = Ok tt
  /\ forall agg_name agg_fn,
       (agg_name, agg_fn) ∈ [("span_aggregate", Z.succ); ("sequence_aggregate", Z.pred)] ->
       stored_aggregate_fn
         (DEFAULT_ATTRIBUTION_AGGREGATE_DICT
            (register_step_score Example.scaled_score "custom"
               (Some [("span_aggregate", Z.succ); ("sequence_aggregate", Z.pred)])
               Example.one_dict).2)
         agg_name "custom"
       = Some agg_fn.
Proof.
  apply (register_step_score_stores_aggregates Example.scaled_score "custom"
           [("span_aggregate", Z.succ); ("sequence_aggregate", Z.pred)]
           Example.one_dict ∅).
  - vm_compute. reflexivity.
  - apply (bool_decide_unpack _). vm_compute. reflexivity.
Defined.

Lemma register_step_score_aggregates_frame_witness :
  let after :=
    DEFAULT_ATTRIBUTION_AGGREGATE_DICT
      (register_step_score Example.scaled_score "custom"
         (Some [("span_aggregate", Z.succ)]) Example.one_dict).2 in
  (forall key, key ≠ "step_scores" ->
     after !! key = DEFAULT_ATTRIBUTION_AGGREGATE_DICT Example.one_dict !! key)
  /\ (forall agg_name other,
        other ≠ "custom" \/ agg_name ∉ ODict.keys [("span_aggregate", Z.succ)] ->
        stored_aggregate_fn after agg_name other
        = stored_aggregate_fn (DEFAULT_ATTRIBUTION_AGGREGATE_DICT Example.one_dict)
            agg_name other).
Proof.
  apply (register_step_score_aggregates_frame Example.scaled_score "custom"
           [("span_aggregate", Z.succ)] Example.one_dict ∅).
  vm_compute. reflexivity.
Defined.

Lemma extract_args_raise_leaves_dicts_witness :
  let run := extract_args signature_args Example.stepwise_method Example.scaled_score
               ["surprisal"] [] Example.separate_kwargs Example.three_dicts in
  (forall l, is_Some (heap Example.three_dicts !! l) ->
     heap run.2 !! l = heap Example.three_dicts !! l)
  /\ warnings run.2 = warnings Example.three_dicts.
Proof.
  apply (extract_args_raise_leaves_dicts signature_args Example.stepwise_method
           Example.scaled_score ["surprisal"] [] Example.separate_kwargs
           Example.three_dicts _
           (step_score_not_found "surprisal"
              ["probability"; "entropy"; "crossentropy"; "perplexity"])).
  - apply injective_projections; [vm_compute; reflexivity | reflexivity].
  - apply (bool_decide_unpack _). vm_compute. reflexivity.
Defined.

Lemma extract_args_returns_callers_dicts_witness :
  match kw_attribution_args Example.shared_kwargs with
  | Some supplied => 0%nat = supplied
  | None => heap Example.one_dict !! 0%nat = None
  end
  /\ match kw_attributed_fn_args Example.shared_kwargs with
     | Some supplied => 0%nat = supplied
     | None => heap Example.one_dict !! 0%nat = None
     end
  /\ match kw_step_scores_args Example.shared_kwargs with
     | Some supplied => 1%nat = supplied
     | None => heap Example.one_dict !! 1%nat = None
     end.
Proof.
  apply (extract_args_returns_callers_dicts signature_args Example.stepwise_method
           Example.scaled_score [] [] Example.shared_kwargs Example.one_dict
           (extract_args signature_args Example.stepwise_method Example.scaled_score
              [] [] Example.shared_kwargs Example.one_dict).2
           0%nat 0%nat 1%nat).
  - apply injective_projections; [vm_compute; reflexivity | reflexivity].
  - apply (bool_decide_unpack _). vm_compute. reflexivity.
Defined.

Lemma extract_args_leaves_other_dicts_witness :
  heap (extract_args signature_args Example.stepwise_method Example.scaled_score
          [] [] Example.shared_kwargs Example.three_dicts).2 !! 2%nat
  = heap Example.three_dicts !! 2%nat.
Proof.
  apply (extract_args_leaves_other_dicts signature_args Example.stepwise_method
           Example.scaled_score [] [] Example.shared_kwargs Example.three_dicts
           _ 0%nat 0%nat 3%nat 2%nat).
  - apply injective_projections; [vm_compute; reflexivity | reflexivity].
  - apply (bool_decide_unpack _). vm_compute. reflexivity.
  - apply (bool_decide_unpack _). vm_compute. reflexivity.
  - apply (bool_decide_unpack _). vm_compute. reflexivity.
Defined.

Lemma extract_args_updates_in_place_witness :
  let run := extract_args signature_args Example.stepwise_method Example.scaled_score
               [] [] Example.shared_kwargs Example.one_dict in
  let extra_attribution_args :=
    (get_attribution_args Example.stepwise_method (kw_others Example.shared_kwargs)).1 in
  let extra_attributed_fn_args :=
    (signature_args (kw_others Example.shared_kwargs) Example.scaled_score [] true).1 in
  let extra_step_scores_args :=
    matched_step_scores_args signature_args (STEP_SCORES_MAP Example.one_dict)
      (kw_others Example.shared_kwargs) [] [] in
  heap run.2 !! 0%nat
  = Some (let once :=
            extra_attribution_args
            ∪ popped_dict Example.one_dict (kw_attribution_args Example.shared_kwargs) in
          let twice :=
            if bool_decide (0%nat = 0%nat) then extra_attributed_fn_args ∪ once else once in
          if bool_decide (1%nat = 0%nat) then extra_step_scores_args ∪ twice else twice)
  /\ heap run.2 !! 0%nat
     = Some (let once :=
               if bool_decide (0%nat = 0%nat)
               then extra_attribution_args
                    ∪ popped_dict Example.one_dict
                        (kw_attributed_fn_args Example.shared_kwargs)
               else popped_dict Example.one_dict
                      (kw_attributed_fn_args Example.shared_kwargs) in
             let twice := extra_attributed_fn_args ∪ once in
             if bool_decide (1%nat = 0%nat) then extra_step_scores_args ∪ twice else twice)
  /\ heap run.2 !! 1%nat
     = Some (let once :=
               if bool_decide (0%nat = 1%nat)
               then extra_attribution_args
                    ∪ popped_dict Example.one_dict
                        (kw_step_scores_args Example.shared_kwargs)
               else popped_dict Example.one_dict
                      (kw_step_scores_args Example.shared_kwargs) in
             let twice :=
               if bool_decide (0%nat = 1%nat)
               then extra_attributed_fn_args ∪ once else once in
             extra_step_scores_args ∪ twice).
Proof.
  apply (extract_args_updates_in_place signature_args Example.stepwise_method
           Example.scaled_score [] [] Example.shared_kwargs Example.one_dict
           _ 0%nat 0%nat 1%nat).
  - apply injective_projections; [vm_compute; reflexivity | reflexivity].
  - apply (bool_decide_unpack _). vm_compute. reflexivity.
Defined.

Lemma format_attribute_args_baselines_match_witness :
  exists inputs baselines,
    (<["baselines" := PTuple [PTensor 5; PTensor 5]]>
       (format_attribute_args_encoder_decoder (ModelOutput := unit) Z.succ Sample.batch 7
          Example.scaled_score true [("temperature", 2)] false).1)
    !! "inputs" = Some (PTuple inputs)
    /\ (<["baselines" := PTuple [PTensor 5; PTensor 5]]>
          (format_attribute_args_encoder_decoder (ModelOutput := unit) Z.succ Sample.batch 7
             Example.scaled_score true [("temperature", 2)] false).1)
       !! "baselines" = Some (PTuple baselines)
    /\ length inputs = length baselines
    /\ length inputs = (if true && true then 2 else 1)%nat.
Proof.
  apply (format_attribute_args_baselines_match Z.succ (EncDec Sample.batch) 7
           Example.scaled_score true [("temperature", 2)] false true).
  reflexivity.
Defined.
